(** * timedb: the tool-runtime cache of galaxy-timedb (src/timedb.py)

    A shallow embedding of [timedb.py]: the [Tool] class, the SQL statements
    the program runs against its SQLite table [runtimes], and the [App]
    methods that reconcile that table with the tool catalog of a Galaxy
    server.  Python exceptions are values of [exn]; code that touches the
    database, the clock or standard output runs in the monad [M]. *)

From Stdlib Require Import ZArith QArith Qabs Lia Ascii String.
From stdpp Require Import base decidable option list strings gmap pretty.

Set Warnings "-clear-no-such-hyp".

Local Open Scope Z_scope.
Local Open Scope string_scope.

(** ** Python values and exceptions *)

(** The exceptions the program can raise.  [AssertionError] carries the
    message of the [assert] statement, when it has one;
    [OperationalError] is that of [sqlite3], [NumericValueOutOfRange] that
    of [psycopg2]. *)
Inductive exn : Type :=
  | AssertionError (msg : option string)
  | TypeError (msg : string)
  | ValueError (msg : string)
  | OverflowError (msg : string)
  | UnboundLocalError (var : string)
  | AttributeError (cls attr : string)
  | KeyError (key : string)
  | OperationalError (msg : string)
  | NumericValueOutOfRange (msg : string).

(** The result of running a pure piece of Python. *)
Inductive result (A : Type) : Type :=
  | Ok (a : A)
  | Raise (e : exn).
Arguments Ok {A} a.
Arguments Raise {A} e.

Definition is_ok {A} (r : result A) : bool :=
  match r with Ok _ => true | Raise _ => false end.

(** ** Strings *)

Module PyStr.

Definition sep : ascii := "/"%char.

(** [c in s] for a one-character [c]. *)
Fixpoint contains (c : ascii) (s : string) : bool :=
  match s with
  | EmptyString => false
  | String a r => if Ascii.eqb a c then true else contains c r
  end.

(** [s.startswith(p)]. *)
Definition startswith (s p : string) : bool := String.prefix p s.

(** The split of [s] at its last [c], when it has one. *)
Fixpoint rsplit_last (c : ascii) (s : string) : option (string * string) :=
  match s with
  | EmptyString => None
  | String a r =>
      match rsplit_last c r with
      | Some (h, t) => Some (String a h, t)
      | None => if Ascii.eqb a c then Some (EmptyString, r) else None
      end
  end.

(** [s.rsplit(c, 1)]: a list of one or two strings. *)
Definition rsplit1 (c : ascii) (s : string) : list string :=
  match rsplit_last c s with
  | Some (h, t) => [h; t]
  | None => [s]
  end.

(** The tuple assignment [a, b = l]. *)
Definition unpack2 (l : list string) : result (string * string) :=
  match l with
  | [a; b] => Ok (a, b)
  | [] =>
      Raise (ValueError "not enough values to unpack (expected 2, got 0)")
  | [_] =>
      Raise (ValueError "not enough values to unpack (expected 2, got 1)")
  | _ => Raise (ValueError "too many values to unpack (expected 2)")
  end.

(** [str(x)] for an [int] or [None]. *)
Definition of_Z (z : Z) : string := pretty z.
Definition of_opt_Z (o : option Z) : string :=
  match o with Some z => of_Z z | None => "None" end.
Definition of_opt (o : option string) : string :=
  match o with Some s => s | None => "None" end.
Definition of_bool (b : bool) : string := if b then "True" else "False".

End PyStr.

(** What the attribute [active] of a tool holds: the [bool] the constructor
    is given by default, or the integer SQLite returns for the column. *)
Inductive flag : Type :=
  | FlagBool (b : bool)
  | FlagInt (z : Z).

(** [str(x)] for such a value. *)
Definition flag_str (x : flag) : string :=
  match x with
  | FlagBool b => PyStr.of_bool b
  | FlagInt z => PyStr.of_Z z
  end.

(** ** The class [Tool] *)

Record Tool : Type := mkTool {
  id : string;
  version : string;
  base_id : option string;
  update_time : option Z;
  run_count : option Z;
  min_runtime : option Z;
  median_runtime : option Z;
  mean_runtime : option Z;
  pct95_runtime : option Z;
  pct99_runtime : option Z;
  max_runtime : option Z;
  active : flag
}.

Definition with_base_id (t : Tool) (b : string) : Tool :=
  mkTool (id t) (version t) (Some b) (update_time t) (run_count t)
    (min_runtime t) (median_runtime t) (mean_runtime t) (pct95_runtime t)
    (pct99_runtime t) (max_runtime t) (active t).

(** [Tool.set_base_id] (lines 145-152). *)
Definition set_base_id (self : Tool) : result Tool :=
  match base_id self with
  | Some b =>
      if PyStr.startswith (id self) b then Ok self
      else Raise (AssertionError (Some (id self +:+ ", " +:+ b)))
  | None =>
      if PyStr.contains PyStr.sep (id self) then
        match PyStr.unpack2 (PyStr.rsplit1 PyStr.sep (id self)) with
        | Ok (b, id_version) =>
            if String.eqb (version self) id_version
            then Ok (with_base_id self b)
            else Raise (AssertionError
                          (Some (version self +:+ " != " +:+ id_version)))
        | Raise e => Raise e
        end
      else Ok (with_base_id self (id self))
  end.

(** [Tool.__init__] (lines 129-143), every argument given. *)
Definition Tool_init (id : string) (version : option string)
    (base_id : option string) (update_time : option Z)
    (run_count min_runtime median_runtime mean_runtime pct95_runtime
       pct99_runtime max_runtime : option Z) (active : flag) : result Tool :=
  match version with
  | None => Raise (AssertionError None)
  | Some v =>
      set_base_id
        (mkTool id v base_id update_time run_count min_runtime median_runtime
           mean_runtime pct95_runtime pct99_runtime max_runtime active)
  end.

(** [Tool(id, version, base_id)], the other arguments at their defaults. *)
Definition Tool_new (id : string) (version : option string)
    (base_id : option string) : result Tool :=
  Tool_init id version base_id None (Some (-1)) None None None None None None
    (FlagBool true).

(** The property [Tool.key] (lines 157-159). *)
Definition key (self : Tool) : string :=
  PyStr.of_opt (base_id self) +:+ "/" +:+ version self.

(** The two assertions of [set_base_id], under the names the design gives
    their failures. *)
Definition InvariantViolation (id base_id : string) : exn :=
  AssertionError (Some (id +:+ ", " +:+ base_id)).
Definition VersionMismatch (version id_version : string) : exn :=
  AssertionError (Some (version +:+ " != " +:+ id_version)).

(** [Tool.__str__] (lines 154-155). *)
Definition Tool_str (self : Tool) : string :=
  key self +:+ ": run_count=" +:+ PyStr.of_opt_Z (run_count self)
    +:+ ", min_runtime=" +:+ PyStr.of_opt_Z (min_runtime self)
    +:+ ", median_runtime=" +:+ PyStr.of_opt_Z (median_runtime self)
    +:+ ", mean_runtime=" +:+ PyStr.of_opt_Z (mean_runtime self)
    +:+ ", pct95_runtime=" +:+ PyStr.of_opt_Z (pct95_runtime self)
    +:+ ", pct99_runtime=" +:+ PyStr.of_opt_Z (pct99_runtime self)
    +:+ ", max_runtime=" +:+ PyStr.of_opt_Z (max_runtime self)
    +:+ ", active=" +:+ flag_str (active self).

(** ** The summary of the job database and [Tool.update_stats] *)

(** A value of PostgreSQL's [numeric] or [double precision]: a rational, or
    one of the three values that are not. *)
Inductive number : Type :=
  | Finite (q : Q)
  | NaN
  | Infinity (negative : bool).

(** What the aggregates of SUMMARY_SQL (lines 59-69) evaluate to before the
    casts, in the order of the select list.  Every one is null when no run
    matches. *)
Module Aggregates.
Record t : Type := mk {
  min : option number;
  percentile_25 : option number;
  percentile_50 : option number;
  avg : option number;
  percentile_75 : option number;
  percentile_95 : option number;
  percentile_99 : option number;
  max : option number;
  sum : option number;
  stddev : option number
}.

(** The aggregates of an empty set of runs. *)
Definition null : t :=
  mk None None None None None None None None None None.
End Aggregates.

(** A column of the summary as the Python value [psycopg2] makes of it:
    [None] for null, an [int] for a [bigint], a [Decimal] for a [numeric]
    (the type of [metric_value] in the schema of Galaxy). *)
Inductive pyval : Type :=
  | PyNone
  | PyInt (z : Z)
  | PyDecimal (d : number).

Definition of_int (x : option Z) : pyval :=
  match x with Some z => PyInt z | None => PyNone end.
Definition of_decimal (x : option number) : pyval :=
  match x with Some d => PyDecimal d | None => PyNone end.

(** The named tuple [summary_stats] returns: one attribute for each column
    of SUMMARY_SQL (lines 60-69). *)
Module Summary.
Record t : Type := mk {
  min : pyval;
  quant_1st : pyval;
  median : pyval;
  mean : pyval;
  quant_3rd : pyval;
  perc_95 : pyval;
  perc_99 : pyval;
  max : pyval;
  sum : pyval;
  stddev : pyval
}.

(** The summary of an empty set of runs. *)
Definition null : t :=
  mk PyNone PyNone PyNone PyNone PyNone PyNone PyNone PyNone PyNone PyNone.
End Summary.

(** The integers of 64 bits: PostgreSQL's [bigint] and SQLite's INTEGER. *)
Definition int64 (z : Z) : bool :=
  ((- 2 ^ 63 <=? z)%Z && (z <? 2 ^ 63)%Z)%bool.

(** The nearest integer, the even one of two that are equally near. *)
Definition rint (q : Q) : Z :=
  let f := Qnum q / Zpos (Qden q) in
  let r := Qnum q mod Zpos (Qden q) in
  match (2 * r ?= Zpos (Qden q))%Z with
  | Lt => f
  | Gt => f + 1
  | Eq => if Z.even f then f else f + 1
  end.

Definition bigint_out_of_range : exn :=
  NumericValueOutOfRange "bigint out of range".

(** The cast [::bigint] of a [double precision] value: it rounds to the
    nearest integer, keeps null, and fails on what has no such integer of
    64 bits. *)
Definition pg_bigint (x : option number) : result (option Z) :=
  match x with
  | None => Ok None
  | Some (Finite q) =>
      if int64 (rint q) then Ok (Some (rint q)) else Raise bigint_out_of_range
  | Some NaN | Some (Infinity _) => Raise bigint_out_of_range
  end.

Definition bind_result {A B} (r : result A) (f : A → result B) : result B :=
  match r with Ok a => f a | Raise e => Raise e end.

(** The select list of SUMMARY_SQL (lines 59-69) on the values of its
    aggregates, as [psycopg2] hands the row over: the five percentiles are
    [int], through their cast to [bigint]; the other columns are
    [Decimal]. *)
Definition SUMMARY_SQL (a : Aggregates.t) : result Summary.t :=
  bind_result (pg_bigint (Aggregates.percentile_25 a)) (λ q1,
  bind_result (pg_bigint (Aggregates.percentile_50 a)) (λ md,
  bind_result (pg_bigint (Aggregates.percentile_75 a)) (λ q3,
  bind_result (pg_bigint (Aggregates.percentile_95 a)) (λ p95,
  bind_result (pg_bigint (Aggregates.percentile_99 a)) (λ p99,
  Ok (Summary.mk (of_decimal (Aggregates.min a)) (of_int q1) (of_int md)
        (of_decimal (Aggregates.avg a)) (of_int q3) (of_int p95) (of_int p99)
        (of_decimal (Aggregates.max a)) (of_decimal (Aggregates.sum a))
        (of_decimal (Aggregates.stddev a)))))))).

(** [int(x)] on a finite number: the integer part, towards zero. *)
Definition trunc (q : Q) : Z := Z.quot (Qnum q) (Zpos (Qden q)).

(** The three ways [int(x)] fails on a column. *)
Definition int_of_None : exn :=
  TypeError
    "int() argument must be a string, a bytes-like object or a real number, not 'NoneType'".
Definition int_of_NaN : exn := ValueError "cannot convert NaN to integer".
Definition int_of_Infinity : exn :=
  OverflowError "cannot convert Infinity to integer".

(** [int(x)]. *)
Definition py_int (x : pyval) : result Z :=
  match x with
  | PyInt z => Ok z
  | PyDecimal (Finite q) => Ok (trunc q)
  | PyDecimal NaN => Raise int_of_NaN
  | PyDecimal (Infinity _) => Raise int_of_Infinity
  | PyNone => Raise int_of_None
  end.

Definition with_run_count (t : Tool) (n : option Z) : Tool :=
  mkTool (id t) (version t) (base_id t) (update_time t) n
    (min_runtime t) (median_runtime t) (mean_runtime t) (pct95_runtime t)
    (pct99_runtime t) (max_runtime t) (active t).

Definition with_stats (t : Tool) (mn md me p95 p99 mx : Z) : Tool :=
  mkTool (id t) (version t) (base_id t) (update_time t) (run_count t)
    (Some mn) (Some md) (Some me) (Some p95) (Some p99) (Some mx) (active t).

(** [Tool.update_stats] (lines 161-167): six conversions in order, the
    first that fails raises. *)
Definition update_stats (self : Tool) (summary : Summary.t) : result Tool :=
  bind_result (py_int (Summary.min summary)) (λ mn,
  bind_result (py_int (Summary.median summary)) (λ md,
  bind_result (py_int (Summary.mean summary)) (λ me,
  bind_result (py_int (Summary.perc_95 summary)) (λ p95,
  bind_result (py_int (Summary.perc_99 summary)) (λ p99,
  bind_result (py_int (Summary.max summary)) (λ mx,
  Ok (with_stats self mn md me p95 p99 mx))))))).

(** ** The table [runtimes] and the statements run against it *)

(** A row of [runtimes] (CREATE_SQL, lines 11-26).  The table declares no
    key and no uniqueness constraint.  Timestamps are in seconds. *)
Module Runtimes.
Record row : Type := mk {
  tool_id : string;
  base_tool_id : option string;
  tool_version : string;
  update_time : Z;
  run_count : option Z;
  min_runtime : option Z;
  median_runtime : option Z;
  mean_runtime : option Z;
  pct95_runtime : option Z;
  pct99_runtime : option Z;
  max_runtime : option Z;
  active : bool
}.
End Runtimes.

(** The named parameters of a statement: [Tool.upsert_values]
    (lines 169-181). *)
Module Params.
Record t : Type := mk {
  tool_id : string;
  base_tool_id : option string;
  tool_version : string;
  run_count : option Z;
  min_runtime : option Z;
  median_runtime : option Z;
  mean_runtime : option Z;
  pct95_runtime : option Z;
  pct99_runtime : option Z;
  max_runtime : option Z
}.
End Params.

Definition upsert_values (self : Tool) : Params.t :=
  Params.mk (id self) (base_id self) (version self) (run_count self)
    (min_runtime self) (median_runtime self) (mean_runtime self)
    (pct95_runtime self) (pct99_runtime self) (max_runtime self).

Inductive sql : Type :=
  | INSERT_TOOL_SQL
  | UPDATE_TOOL_SQL
  | DEACTIVATE_TOOL_SQL.

(** The WHERE clause shared by UPDATE_TOOL_SQL and DEACTIVATE_TOOL_SQL. *)
Definition matches (p : Params.t) (r : Runtimes.row) : bool :=
  String.eqb (Runtimes.tool_id r) (Params.tool_id p)
  && String.eqb (Runtimes.tool_version r) (Params.tool_version p).

(** INSERT_TOOL_SQL (lines 73-96): ten columns from the parameters, the
    other two from their defaults. *)
Definition inserted (p : Params.t) (now : Z) : Runtimes.row :=
  Runtimes.mk (Params.tool_id p) (Params.base_tool_id p)
    (Params.tool_version p) now (Params.run_count p) (Params.min_runtime p)
    (Params.median_runtime p) (Params.mean_runtime p)
    (Params.pct95_runtime p) (Params.pct99_runtime p)
    (Params.max_runtime p) true.

(** The SET clause of UPDATE_TOOL_SQL (lines 98-114). *)
Definition updated (p : Params.t) (now : Z) (r : Runtimes.row)
    : Runtimes.row :=
  Runtimes.mk (Params.tool_id p) (Runtimes.base_tool_id r)
    (Runtimes.tool_version r) now (Params.run_count p) (Params.min_runtime p)
    (Params.median_runtime p) (Params.mean_runtime p)
    (Params.pct95_runtime p) (Params.pct99_runtime p)
    (Params.max_runtime p) (Runtimes.active r).

(** The SET clause of DEACTIVATE_TOOL_SQL (lines 116-125). *)
Definition deactivated (now : Z) (r : Runtimes.row) : Runtimes.row :=
  Runtimes.mk (Runtimes.tool_id r) (Runtimes.base_tool_id r)
    (Runtimes.tool_version r) now (Runtimes.run_count r)
    (Runtimes.min_runtime r) (Runtimes.median_runtime r)
    (Runtimes.mean_runtime r) (Runtimes.pct95_runtime r)
    (Runtimes.pct99_runtime r) (Runtimes.max_runtime r) false.

(** The integers a statement binds, by the names in its text: INSERT_TOOL_SQL
    and UPDATE_TOOL_SQL bind the run count and the six runtimes,
    DEACTIVATE_TOOL_SQL binds none. *)
Definition bound_integers (s : sql) (p : Params.t) : list (option Z) :=
  match s with
  | INSERT_TOOL_SQL | UPDATE_TOOL_SQL =>
      [ Params.run_count p; Params.min_runtime p; Params.median_runtime p;
        Params.mean_runtime p; Params.pct95_runtime p;
        Params.pct99_runtime p; Params.max_runtime p ]
  | DEACTIVATE_TOOL_SQL => []
  end.

(** Every integer the statement binds fits SQLite's INTEGER. *)
Definition bindable (s : sql) (p : Params.t) : bool :=
  forallb (λ x, match x with Some z => int64 z | None => true end)
    (bound_integers s p).

Definition int_too_large : exn :=
  OverflowError "Python int too large to convert to SQLite INTEGER".

(** The binding of the parameters by [cur.execute]: [sqlite3] refuses a
    Python [int] that does not fit in 64 bits. *)
Definition bind_parameters (s : sql) (p : Params.t) : result unit :=
  if bindable s p then Ok tt else Raise int_too_large.

(** One statement, its parameters bound, run at time [now] on the rows of
    the table. *)
Definition execute (s : sql) (p : Params.t) (now : Z)
    (rows : list Runtimes.row) : list Runtimes.row :=
  match s with
  | INSERT_TOOL_SQL => rows ++ [inserted p now]
  | UPDATE_TOOL_SQL =>
      map (λ r, if matches p r then updated p now r else r) rows
  | DEACTIVATE_TOOL_SQL =>
      map (λ r, if matches p r then deactivated now r else r) rows
  end.

(** [update_time < threshold] in SQL: never true of a null threshold. *)
Definition before (threshold : option Z) (t : Z) : bool :=
  match threshold with
  | Some th => (t <? th)%Z
  | None => false
  end.

(** The query of [get_db_tools] (lines 231-235): the active rows, and with
    [for_update] those among them last written before the threshold, which
    is what [datetime('now', ?)] gives for the modifier bound to it. *)
Definition select_active (for_update : bool) (threshold : option Z)
    (rows : list Runtimes.row) : list Runtimes.row :=
  filter
    (λ r, Runtimes.active r = true
          ∧ (for_update = true
             → before threshold (Runtimes.update_time r) = true))
    rows.

(** The column [active] as SQLite returns it: the integer 1 or 0. *)
Definition sqlite_bool (b : bool) : flag := FlagInt (if b then 1 else 0).

(** [tool_factory] (lines 194-198): the row factory of the connection. *)
Definition tool_factory (r : Runtimes.row) : result Tool :=
  Tool_init (Runtimes.tool_id r) (Some (Runtimes.tool_version r))
    (Runtimes.base_tool_id r) (Some (Runtimes.update_time r))
    (Runtimes.run_count r) (Runtimes.min_runtime r)
    (Runtimes.median_runtime r) (Runtimes.mean_runtime r)
    (Runtimes.pct95_runtime r) (Runtimes.pct99_runtime r)
    (Runtimes.max_runtime r) (sqlite_bool (Runtimes.active r)).

(** ** Dictionaries of tools *)

(** A [dict] from keys to tools, in insertion order. *)
Module Dict.
Definition t : Type := list (string * Tool).

(** [d[k] = v]: the value of a key already present is replaced where it
    stands, a new key goes to the end. *)
Fixpoint set (d : t) (k : string) (v : Tool) : t :=
  match d with
  | [] => [(k, v)]
  | (k', v') :: d' =>
      if String.eqb k' k then (k, v) :: d' else (k', v') :: set d' k v
  end.

(** [d[k]]. *)
Fixpoint get (d : t) (k : string) : result Tool :=
  match d with
  | [] => Raise (KeyError k)
  | (k', v) :: d' => if String.eqb k' k then Ok v else get d' k
  end.

(** [set(d.keys())]. *)
Definition keys (d : t) : gset string := list_to_set (map fst d).

(** The dictionary built by [for tool in tools: d[tool.key] = tool]. *)
Definition of_tools (tools : list Tool) : t :=
  fold_left (λ d tool, set d (key tool) tool) tools [].
End Dict.

(** The keys the first loop of [handle_tool_changes] runs over (line 278)
    and those the second runs over (line 280). *)
Definition to_insert (server_tool_keys db_tool_keys : gset string)
    : gset string := server_tool_keys ∖ db_tool_keys.
Definition to_deactivate (server_tool_keys db_tool_keys : gset string)
    : gset string := db_tool_keys ∖ server_tool_keys.

(** ** The world the program runs in *)

(** The SQLite file: missing, without the table, or holding its rows. *)
Inductive database : Type :=
  | Absent
  | NoTable
  | Table (rows : list Runtimes.row).

(** What a run changes: the SQLite file, the number of times the clock has
    been read, the lines printed, and the statements committed so far. *)
Record World : Type := mkWorld {
  db : database;
  ticks : nat;
  stdout : list string;
  committed : list (sql * Params.t)
}.

(** What a run reads and does not change: the time at each reading of the
    clock; what SQLite's [datetime] makes of a time and a modifier, null
    when it does not accept the modifier; the answer of the Galaxy server
    to the catalog request (the [id] and [version] of each entry); and for
    a tool id and version the answer of the job database to COUNT_SQL and
    the values of the aggregates of SUMMARY_SQL. *)
Record Env : Type := mkEnv {
  clock : nat → Z;
  sqlite_datetime : Z → string → option Z;
  catalog : list (string * option string);
  job_count : string → string → Z;
  job_aggregates : string → string → Aggregates.t
}.

(** A computation: it ends with a value or an exception, and in both cases
    leaves a world behind. *)
Definition M (A : Type) : Type := World → World * result A.

Definition ret {A} (a : A) : M A := λ w, (w, Ok a).
Definition raise {A} (e : exn) : M A := λ w, (w, Raise e).
Definition lift {A} (r : result A) : M A := λ w, (w, r).
Definition bind {A B} (m : M A) (f : A → M B) : M B :=
  λ w, match m w with
       | (w', Ok a) => f a w'
       | (w', Raise e) => (w', Raise e)
       end.

#[global] Instance M_ret : MRet M := @ret.
#[global] Instance M_bind : MBind M := λ A B f m, bind m f.

(** [for x in l: body(x)]. *)
Fixpoint for_each {A} (l : list A) (body : A → M unit) : M unit :=
  match l with
  | [] => ret tt
  | x :: l' => bind (body x) (λ _, for_each l' body)
  end.

(** The first failure among the results of [f] on a list, or all of them. *)
Fixpoint map_result {A B} (f : A → result B) (l : list A) : result (list B) :=
  match l with
  | [] => Ok []
  | x :: l' =>
      bind_result (f x) (λ y,
      bind_result (map_result f l') (λ ys, Ok (y :: ys)))
  end.

(** [print(s)]. *)
Definition print (s : string) : M unit :=
  λ w, (mkWorld (db w) (ticks w) (stdout w ++ [s]) (committed w), Ok tt).

(** One reading of the clock, by [datetime('now')] or CURRENT_TIMESTAMP. *)
Definition read_clock (env : Env) : M Z :=
  λ w, (mkWorld (db w) (S (ticks w)) (stdout w) (committed w),
        Ok (clock env (ticks w))).

(** [sqlite3.connect(db_file)] followed by a statement on [runtimes]: the
    rows of the table, or the error of SQLite when the table is missing (a
    missing file is created empty). *)
Definition table_rows : M (list Runtimes.row) :=
  λ w, match db w with
       | Table rows => (w, Ok rows)
       | Absent | NoTable =>
           (mkWorld NoTable (ticks w) (stdout w) (committed w),
            Raise (OperationalError "no such table: runtimes"))
       end.

Definition write_rows (rows : list Runtimes.row) : M unit :=
  λ w, (mkWorld (Table rows) (ticks w) (stdout w) (committed w), Ok tt).

Definition log_commit (s : sql) (p : Params.t) : M unit :=
  λ w, (mkWorld (db w) (ticks w) (stdout w) (committed w ++ [(s, p)]), Ok tt).

(** The value of a local variable; reading it before any assignment raises. *)
Definition local {A} (name : string) (v : option A) : M A :=
  match v with
  | Some a => ret a
  | None => raise (UnboundLocalError name)
  end.

(** ** The class [App] *)

(** The attributes set by [App.__init__] (lines 202-207). *)
Record App : Type := mkApp {
  db_file : string;
  pg_conn_string : option string;
  galaxy_url : string;
  older_than : string
}.

(** The default of [--older-than] (line 187). *)
Definition default_older_than : string := "1 week".

Section Methods.

Variable env : Env.
Variable self : App.

(** [App.make_db] (lines 215-218). *)
Definition make_db : M unit :=
  λ w, match db w with
       | Table _ =>
           (w, Raise (OperationalError "table runtimes already exists"))
       | Absent | NoTable =>
           (mkWorld (Table []) (ticks w) (stdout w) (committed w), Ok tt)
       end.

(** [App.get_server_tools] (lines 220-227). *)
Definition get_server_tools : M Dict.t :=
  tools ← lift (map_result (λ e, Tool_new e.1 e.2 None) (catalog env));
  mret (Dict.of_tools tools).

(** [App.get_db_tools] (lines 229-245). *)
Definition get_db_tools (for_update : bool) : M Dict.t :=
  rows ← table_rows;
  threshold ← (if for_update
               then now ← read_clock env;
                    mret (sqlite_datetime env now ("-" +:+ older_than self))
               else mret None);
  tools ← lift (map_result tool_factory
                  (select_active for_update threshold rows));
  mret (Dict.of_tools tools).

(** [App.run_count] (lines 247-251). *)
Definition App_run_count (tool : Tool) : M Z :=
  mret (job_count env (id tool) (version tool)).

(** [App.summary_stats] (lines 253-257). *)
Definition summary_stats (tool : Tool) : M Summary.t :=
  lift (SUMMARY_SQL (job_aggregates env (id tool) (version tool))).

(** [App.commit_tool] (lines 259-263). *)
Definition commit_tool (tool : Tool) (s : sql) : M unit :=
  rows ← table_rows;
  lift (bind_parameters s (upsert_values tool));;
  now ← read_clock env;
  write_rows (execute s (upsert_values tool) now rows);;
  log_commit s (upsert_values tool).

(** [App.upsert_tool] (lines 265-271). *)
Definition upsert_tool (tool : Tool) (upsert_sql : sql) : M unit :=
  count ← App_run_count tool;
  let tool := with_run_count tool (Some count) in
  summary ← summary_stats tool;
  tool ← lift (update_stats tool summary);
  print (Tool_str tool);;
  commit_tool tool upsert_sql.

(** The three loops of [App.handle_tool_changes].  [tool] is the local
    variable of that name as the second loop finds it.  Python fixes no
    order on the elements of a set; the loops take them as [elements]
    lists them. *)
Definition insert_loop (server_tools : Dict.t)
    (server_tool_keys db_tool_keys : gset string) : M unit :=
  for_each (elements (to_insert server_tool_keys db_tool_keys))
    (λ tool_key,
       t ← lift (Dict.get server_tools tool_key);
       upsert_tool t INSERT_TOOL_SQL).

Definition deactivate_loop (tool : option Tool)
    (server_tool_keys db_tool_keys : gset string) : M unit :=
  for_each (elements (to_deactivate server_tool_keys db_tool_keys))
    (λ tool_key,
       t ← local "tool" tool;
       print ("deactivating removed tool: " +:+ key t);;
       commit_tool t DEACTIVATE_TOOL_SQL).

Definition refresh_loop (stale : Dict.t) : M unit :=
  for_each stale (λ item, upsert_tool item.2 UPDATE_TOOL_SQL).

(** [App.handle_tool_changes] (lines 273-284).  [tool] is assigned by the
    third loop only, so it is unbound throughout the second. *)
Definition handle_tool_changes : M unit :=
  server_tools ← get_server_tools;
  db_tools ← get_db_tools false;
  let server_tool_keys := Dict.keys server_tools in
  let db_tool_keys := Dict.keys db_tools in
  let tool : option Tool := None in
  insert_loop server_tools server_tool_keys db_tool_keys;;
  deactivate_loop tool server_tool_keys db_tool_keys;;
  stale ← get_db_tools true;
  refresh_loop stale.

(** The attributes of an [App] object that the class and its [__init__]
    define, each with what calling it on one tool does.  (The attributes
    every object inherits are left out.) *)
Definition not_callable (ty : string) : Tool → M unit :=
  λ _, raise (TypeError ("'" +:+ ty +:+ "' object is not callable")).
Definition too_many (name : string) : Tool → M unit :=
  λ _, raise (TypeError
    ("App." +:+ name
       +:+ "() takes 1 positional argument but 2 were given")).
Definition too_few (name arg : string) : Tool → M unit :=
  λ _, raise (TypeError
    ("App." +:+ name +:+ "() missing 1 required positional argument: '"
       +:+ arg +:+ "'")).

Definition App_attributes : list (string * (Tool → M unit)) :=
  [ ("db_file", not_callable "str");
    ("pg_conn_string", not_callable "str");
    ("galaxy_url", not_callable "str");
    ("older_than", not_callable "str");
    ("_App__pg_con", not_callable "NoneType");
    ("__init__", λ _, mret tt);
    ("pg_con", not_callable "connection");
    ("make_db", too_many "make_db");
    ("get_server_tools", too_many "get_server_tools");
    ("get_db_tools", λ _, get_db_tools true;; mret tt);
    ("run_count", λ t, App_run_count t;; mret tt);
    ("summary_stats", λ t, summary_stats t;; mret tt);
    ("commit_tool", too_few "commit_tool" "sql");
    ("upsert_tool", too_few "upsert_tool" "upsert_sql");
    ("handle_tool_changes", too_many "handle_tool_changes") ].

(** [self.name(tool)]. *)
Definition call_method (name : string) (tool : Tool) : M unit :=
  match list_find (λ a, a.1 = name) App_attributes with
  | Some (_, (_, f)) => f tool
  | None => raise (AttributeError "App" name)
  end.

End Methods.

(** ** The command line and [main] *)

(** The namespace [handle_args] returns (lines 184-191). *)
Record Args : Type := mkArgs {
  pgconn : option string;
  arg_older_than : string;
  arg_galaxy_url : string;
  tool_id : option string;
  sqlite_db_file : string
}.

(** [os.path.exists(args.sqlite_db_file)]. *)
Definition path_exists : M bool :=
  λ w, (w, Ok (match db w with Absent => false | _ => true end)).

(** The truth value of [args.tool_id]: [None] and the empty string are
    false. *)
Definition truthy (o : option string) : option string :=
  match o with
  | Some EmptyString | None => None
  | Some s => Some s
  end.

(** [main] (lines 287-297). *)
Definition main (env : Env) (args : Args) : M unit :=
  let app := mkApp (sqlite_db_file args) (pgconn args) (arg_galaxy_url args)
               (arg_older_than args) in
  present ← path_exists;
  (if present : bool then ret tt else make_db);;
  match truthy (tool_id args) with
  | Some forced =>
      parts ← lift (PyStr.unpack2 (PyStr.rsplit1 PyStr.sep forced));
      tool ← lift (Tool_new forced (Some parts.2) None);
      call_method env app "new_tool" tool
  | None => handle_tool_changes env app
  end.

(** ** Observations on rows *)

(** The six statistics columns and the run count of a row. *)
Definition stats (r : Runtimes.row) : list (option Z) :=
  [ Runtimes.run_count r; Runtimes.min_runtime r; Runtimes.median_runtime r;
    Runtimes.mean_runtime r; Runtimes.pct95_runtime r;
    Runtimes.pct99_runtime r; Runtimes.max_runtime r ].

(** The number of rows carrying a given [(tool_id, tool_version)]. *)
Definition count_key (i v : string) (rows : list Runtimes.row) : nat :=
  length (filter (λ r, Runtimes.tool_id r = i ∧ Runtimes.tool_version r = v)
            rows).

(** The three identity columns of a row. *)
Definition identity (r : Runtimes.row) : string * option string * string :=
  (Runtimes.tool_id r, Runtimes.base_tool_id r, Runtimes.tool_version r).

(** The rows a statement run for a tool addresses: its WHERE clause. *)
Definition row_of (tool : Tool) (r : Runtimes.row) : Prop :=
  Runtimes.tool_id r = id tool ∧ Runtimes.tool_version r = version tool.

(** Every row of [rows] is still at its place in [rows'], with the same
    identity columns. *)
Definition preserved (rows rows' : list Runtimes.row) : Prop :=
  ∀ (i : nat) r, rows !! i = Some r →
    ∃ r', rows' !! i = Some r' ∧ identity r' = identity r.

(** The same between two worlds, and for a computation from any world. *)
Definition keeps_rows (w w' : World) : Prop :=
  ∀ rows, db w = Table rows →
    ∃ rows', db w' = Table rows' ∧ preserved rows rows'.

Definition row_preserving {A} (m : M A) : Prop :=
  ∀ w w' r, m w = (w', r) → keeps_rows w w'.

(** A row whose base id is there and is a prefix of its id, and a tool
    with that property. *)
Definition readable (r : Runtimes.row) : Prop :=
  ∃ b rest, Runtimes.base_tool_id r = Some b
            ∧ Runtimes.tool_id r = b +:+ rest.

Definition well_based (t : Tool) : Prop :=
  ∃ b rest, base_id t = Some b ∧ id t = b +:+ rest.

(** A world whose table, if it has one, holds readable rows only. *)
Definition readable_world (w : World) : Prop :=
  ∀ rows, db w = Table rows → Forall readable rows.

(** A computation that keeps the rows readable, and whose value, when it
    gives one, satisfies [Q]. *)
Definition keeps_readable {A} (m : M A) (Q : A → Prop) : Prop :=
  ∀ w w' r, m w = (w', r) → readable_world w →
    readable_world w' ∧ ∀ a, r = Ok a → Q a.

(** A column that [int] converts: an integer or a finite decimal. *)
Definition convertible (x : pyval) : Prop :=
  match x with
  | PyInt _ | PyDecimal (Finite _) => True
  | PyNone | PyDecimal NaN | PyDecimal (Infinity _) => False
  end.

(** A summary whose six columns read by [update_stats] all convert. *)
Definition complete (s : Summary.t) : Prop :=
  convertible (Summary.min s)
  ∧ convertible (Summary.median s)
  ∧ convertible (Summary.mean s)
  ∧ convertible (Summary.perc_95 s)
  ∧ convertible (Summary.perc_99 s)
  ∧ convertible (Summary.max s).

(** The summary of a tool: SUMMARY_SQL on the aggregates of its runs. *)
Definition job_summary (env : Env) (tool_id version : string)
    : result Summary.t :=
  SUMMARY_SQL (job_aggregates env tool_id version).

(** The tool as [upsert_tool] prints and commits it: with the run count and
    the statistics the job database gives for it. *)
Definition computed (env : Env) (tool : Tool) : result Tool :=
  bind_result (job_summary env (id tool) (version tool))
    (update_stats
       (with_run_count tool (Some (job_count env (id tool) (version tool))))).

(** A tool whose statistics can be computed and stored by the statement
    [s]. *)
Definition storable (env : Env) (s : sql) (tool : Tool) : Prop :=
  ∃ t', computed env tool = Ok t' ∧ bindable s (upsert_values t') = true.

(** The threshold of the query of [get_db_tools(for_update=True)] run at
    time [now]: [datetime('now', '-' + older_than)]. *)
Definition threshold (env : Env) (app : App) (now : Z) : option Z :=
  sqlite_datetime env now ("-" +:+ older_than app).

(** The answers of SQLite's [datetime] that the examples ask for: seven
    days back for the modifier [-7 days], null for [-1 week] (SQLite has
    no unit of that name) and, here, for every other text. *)
Definition example_datetime (t : Z) (modifier : string) : option Z :=
  if String.eqb modifier "-7 days" then Some (t - 7 * 86400) else None.

(** * Properties *)

(** ** Strings *)

Section StringFacts.

Implicit Types (c a : ascii) (s h t p : string).

Lemma startswith_app s p : PyStr.startswith (p +:+ s) p = true.
Proof.
  unfold PyStr.startswith. induction p as [|a p IH]; simpl.
  - by destruct s.
  - destruct (ascii_dec a a); [exact IH | congruence].
Qed.

Lemma startswith_inv s p :
  PyStr.startswith s p = true → ∃ r, s = p +:+ r.
Proof.
  unfold PyStr.startswith. revert s.
  induction p as [|a p IH]; intros s H; simpl in *.
  - by exists s.
  - destruct s as [|b s]; [done|]. simpl in H.
    destruct (ascii_dec a b) as [->|]; [|done].
    destruct (IH _ H) as [r ->]. by exists r.
Qed.

Lemma rsplit_last_none c s :
  PyStr.rsplit_last c s = None ↔ PyStr.contains c s = false.
Proof.
  induction s as [|a s IH]; simpl; [done|].
  destruct (PyStr.rsplit_last c s) as [[h t]|].
  - destruct (Ascii.eqb a c); split; try done.
    intros H. apply IH in H. done.
  - destruct (Ascii.eqb a c); split; try done.
    intros _. by apply IH.
Qed.

Lemma rsplit_last_spec c s h t :
  PyStr.rsplit_last c s = Some (h, t) →
  s = h +:+ String c t ∧ PyStr.contains c t = false.
Proof.
  revert h. induction s as [|a s IH]; intros h; simpl; [done|].
  destruct (PyStr.rsplit_last c s) as [[h' t']|] eqn:E.
  - intros [= <- <-]. destruct (IH h' eq_refl) as [-> ?]. done.
  - destruct (Ascii.eqb a c) eqn:Ea; [|done].
    intros [= <- <-]. apply Ascii.eqb_eq in Ea as ->.
    split; [done|]. by apply rsplit_last_none.
Qed.

Lemma rsplit_last_app c h t :
  PyStr.contains c t = false →
  PyStr.rsplit_last c (h +:+ String c t) = Some (h, t).
Proof.
  intros Ht. induction h as [|a h IH]; simpl.
  - apply rsplit_last_none in Ht. rewrite Ht.
    by rewrite Ascii.eqb_refl.
  - by rewrite IH.
Qed.

Lemma contains_app c h t : PyStr.contains c (h +:+ String c t) = true.
Proof.
  induction h as [|a h IH]; simpl.
  - by rewrite Ascii.eqb_refl.
  - by destruct (Ascii.eqb a c).
Qed.

Lemma rsplit1_two c s h t :
  PyStr.rsplit1 c s = [h; t] →
  s = h +:+ String c t ∧ PyStr.contains c t = false.
Proof.
  unfold PyStr.rsplit1.
  destruct (PyStr.rsplit_last c s) as [[h' t']|] eqn:E; [|done].
  intros [= <- <-]. by apply rsplit_last_spec.
Qed.

End StringFacts.

(** ** Construction of a [Tool] and its key *)

Section ToolFacts.

Implicit Types (i v b : string) (t : Tool).

Lemma set_base_id_explicit t b :
  base_id t = Some b →
  set_base_id t
  = if PyStr.startswith (id t) b then Ok t
    else Raise (InvariantViolation (id t) b).
Proof. unfold set_base_id. by intros ->. Qed.

Lemma set_base_id_split t b idv :
  base_id t = None →
  PyStr.contains PyStr.sep idv = false →
  id t = b +:+ "/" +:+ idv →
  set_base_id t
  = if String.eqb (version t) idv then Ok (with_base_id t b)
    else Raise (VersionMismatch (version t) idv).
Proof.
  intros Hb Hv Hid. unfold set_base_id. rewrite Hb, Hid.
  change (b +:+ "/" +:+ idv) with (b +:+ String PyStr.sep idv).
  rewrite contains_app. unfold PyStr.rsplit1.
  by rewrite rsplit_last_app.
Qed.

End ToolFacts.

(** C6. Mismatch detection.  A [Tool] built with an explicit [base_id] that
    is not a prefix of the full id is refused by the assertion of line 147
    (InvariantViolation).  A [Tool] built without one, whose full id has a
    separator and whose part after the last separator is not the version
    given, is refused by the assertion of line 150 (VersionMismatch).  No
    object is produced in either case, whatever the other arguments. *)
Theorem mismatch_detection (i v : string) (ut rc mn md me p95 p99 mx : option Z)
    (act : flag) :
  (∀ b, (∀ r, i ≠ b +:+ r) →
     Tool_init i (Some v) (Some b) ut rc mn md me p95 p99 mx act
     = Raise (InvariantViolation i b))
  ∧ (∀ b idv, i = b +:+ "/" +:+ idv → PyStr.contains PyStr.sep idv = false →
       idv ≠ v →
       Tool_init i (Some v) None ut rc mn md me p95 p99 mx act
       = Raise (VersionMismatch v idv)).
Proof.
  split.
  - intros b Hb. unfold Tool_init. rewrite (set_base_id_explicit _ b); [|done].
    simpl. destruct (PyStr.startswith i b) eqn:E; [|done].
    apply startswith_inv in E as [r ->]. by destruct (Hb r).
  - intros b idv Hi Hidv Hne. unfold Tool_init.
    rewrite (set_base_id_split _ b idv); [|done..]. simpl.
    destruct (String.eqb v idv) eqn:E; [|done].
    apply String.eqb_eq in E. congruence.
Qed.

Lemma mismatch_detection_witness :
  Tool_new "toolA/1.0" (Some "1.0") (Some "toolB")
  = Raise (InvariantViolation "toolA/1.0" "toolB")
  ∧ Tool_new "toolA/1.0" (Some "2.0") None
    = Raise (VersionMismatch "2.0" "1.0").
Proof.
  split.
  - apply (proj1 (mismatch_detection "toolA/1.0" "1.0" None (Some (-1)) None
                    None None None None None (FlagBool true)) "toolB").
    intros r. simpl. intros [=].
  - apply (proj2 (mismatch_detection "toolA/1.0" "2.0" None (Some (-1)) None
                    None None None None None (FlagBool true)) "toolA" "1.0").
    + reflexivity.
    + reflexivity.
    + intros [=].
Defined.

(** C7. Key derivation.  When the full id splits at its last separator into
    [b] and the version given, [Tool(full_id, version)] is built, its
    [base_id] is [b] and its key is [b + "/" + version]; building the tool
    again with [b] given as its base id, or from the id [b + "/" + version],
    gives the same key.  On every derivation path of [set_base_id] the key
    of the tool built is its base id, a separator and its version. *)
Theorem key_derivation (full_id v b : string) :
  PyStr.rsplit1 PyStr.sep full_id = [b; v] →
  (∃ t, Tool_new full_id (Some v) None = Ok t
        ∧ base_id t = Some b
        ∧ key t = b +:+ "/" +:+ v
        ∧ (∃ t', Tool_new full_id (Some v) (Some b) = Ok t' ∧ key t' = key t)
        ∧ (∃ t', Tool_new (b +:+ "/" +:+ v) (Some v) None = Ok t'
                 ∧ key t' = key t))
  ∧ (∀ i v' bo t, Tool_new i (Some v') bo = Ok t →
       ∃ b', base_id t = Some b' ∧ version t = v'
             ∧ key t = b' +:+ "/" +:+ v'
             ∧ (∀ b0, bo = Some b0 → b' = b0)
             ∧ (bo = None → PyStr.contains PyStr.sep i = false → b' = i)
             ∧ (bo = None → PyStr.contains PyStr.sep i = true →
                PyStr.rsplit1 PyStr.sep i = [b'; v'])).
Proof.
  intros Hsplit. apply rsplit1_two in Hsplit as [Hid Hv]. split.
  - assert (Hnew : ∀ i, i = b +:+ "/" +:+ v →
              Tool_new i (Some v) None
              = Ok (mkTool i v (Some b) None (Some (-1)) None None None None
                      None None (FlagBool true))).
    { intros i Hi. unfold Tool_new, Tool_init.
      rewrite (set_base_id_split _ b v); [|done..]. simpl.
      by rewrite String.eqb_refl. }
    eexists. split; [by apply Hnew|]. repeat split.
    + eexists. split; [|reflexivity].
      unfold Tool_new, Tool_init.
      rewrite (set_base_id_explicit _ b); [|done]. simpl.
      rewrite Hid. change (b +:+ String PyStr.sep v) with (b +:+ ("/" +:+ v)).
      by rewrite startswith_app.
    + eexists. split; [by apply Hnew|]. reflexivity.
  - intros i v' bo t. unfold Tool_new, Tool_init, set_base_id. simpl.
    destruct bo as [b0|].
    + destruct (PyStr.startswith i b0); [|done]. intros [= <-].
      exists b0. repeat split; try done. by intros ? [= ->].
    + destruct (PyStr.contains PyStr.sep i) eqn:Hc.
      * unfold PyStr.rsplit1.
        destruct (PyStr.rsplit_last PyStr.sep i) as [[h idv]|] eqn:E;
          simpl; [|done].
        destruct (String.eqb v' idv) eqn:Ev; [|done]. intros [= <-].
        apply String.eqb_eq in Ev as <-.
        exists h. repeat split; done.
      * intros [= <-]. exists i. repeat split; done.
Qed.

Lemma key_derivation_witness :
  ∃ t, Tool_new "toolA/1.0" (Some "1.0") None = Ok t
       ∧ key t = "toolA/1.0"
       ∧ (∃ t', Tool_new "toolA/1.0" (Some "1.0") (Some "toolA") = Ok t'
                ∧ key t' = key t).
Proof.
  destruct (proj1 (key_derivation "toolA/1.0" "1.0" "toolA" eq_refl))
    as (t & Ht & _ & Hk & Ht' & _).
  exists t. repeat split; [exact Ht | exact Hk | exact Ht'].
Defined.

(** ** The diff of the reconciler *)

(** C5. Diff completeness.  For the key sets [C] of the catalog and [D] of
    the active cache records, the keys inserted are exactly [C − D], the
    keys deactivated exactly [D − C], no key is in both, and together with
    the keys in both sets they make up [C ∪ D].  The loops of
    [handle_tool_changes] visit each such key once. *)
Theorem diff_completeness (C D : gset string) :
  to_insert C D = C ∖ D
  ∧ to_deactivate C D = D ∖ C
  ∧ to_insert C D ∩ to_deactivate C D = ∅
  ∧ to_insert C D ∪ to_deactivate C D ∪ (C ∩ D) = C ∪ D
  ∧ (∀ k, k ∈ elements (to_insert C D) ↔ k ∈ C ∧ k ∉ D)
  ∧ (∀ k, k ∈ elements (to_deactivate C D) ↔ k ∈ D ∧ k ∉ C)
  ∧ NoDup (elements (to_insert C D))
  ∧ NoDup (elements (to_deactivate C D)).
Proof.
  unfold to_insert, to_deactivate. split_and!.
  - done.
  - done.
  - apply set_eq. intros k.
    rewrite elem_of_intersection, !elem_of_difference, elem_of_empty. tauto.
  - apply set_eq. intros k.
    rewrite !elem_of_union, elem_of_intersection, !elem_of_difference.
    destruct (decide (k ∈ C)), (decide (k ∈ D)); tauto.
  - intros k. rewrite elem_of_elements. set_solver.
  - intros k. rewrite elem_of_elements. set_solver.
  - apply NoDup_elements.
  - apply NoDup_elements.
Qed.

(** ** Statements on the table *)

Section Statements.

Variable env : Env.
Variable app : App.

Lemma commit_tool_table tool s (w : World) rows :
  db w = Table rows →
  bindable s (upsert_values tool) = true →
  commit_tool env tool s w
  = (mkWorld
       (Table (execute s (upsert_values tool) (clock env (ticks w)) rows))
       (S (ticks w)) (stdout w) (committed w ++ [(s, upsert_values tool)]),
     Ok tt).
Proof.
  intros Hdb Hb.
  unfold commit_tool, mbind, M_bind, bind, table_rows, lift, bind_parameters.
  by rewrite Hdb, Hb.
Qed.

(** A statement whose parameters [sqlite3] cannot bind raises before it
    runs: nothing is written and the clock is not read. *)
Lemma commit_tool_overflow tool s (w : World) rows :
  db w = Table rows →
  bindable s (upsert_values tool) = false →
  commit_tool env tool s w = (w, Raise int_too_large).
Proof.
  intros Hdb Hb.
  unfold commit_tool, mbind, M_bind, bind, table_rows, lift, bind_parameters.
  by rewrite Hdb, Hb.
Qed.

Lemma bindable_deactivate p : bindable DEACTIVATE_TOOL_SQL p = true.
Proof. reflexivity. Qed.

Lemma deactivated_lookup p now rows (i : nat) r :
  rows !! i = Some r →
  execute DEACTIVATE_TOOL_SQL p now rows !! i
  = Some (if matches p r then deactivated now r else r).
Proof. intros H. simpl. by rewrite list_lookup_fmap, H. Qed.

Lemma execute_length s p now rows :
  s ≠ INSERT_TOOL_SQL → length (execute s p now rows) = length rows.
Proof. destruct s; [done|..]; intros _; simpl; by rewrite length_map. Qed.

(** [upsert_tool] on a tool whose statistics are computed: it prints the
    tool and commits it. *)
Lemma upsert_tool_commits tool tool' s (w : World) :
  computed env tool = Ok tool' →
  upsert_tool env tool s w
  = commit_tool env tool' s
      (mkWorld (db w) (ticks w) (stdout w ++ [Tool_str tool']) (committed w)).
Proof.
  unfold computed, job_summary. intros Hc.
  unfold upsert_tool, mbind, M_bind, bind, App_run_count, summary_stats,
    mret, M_ret, ret, lift. simpl.
  destruct (SUMMARY_SQL _) as [summary|]; simpl in *; [|done].
  by rewrite Hc.
Qed.

Lemma upsert_tool_computed tool tool' s (w : World) rows :
  db w = Table rows →
  computed env tool = Ok tool' →
  bindable s (upsert_values tool') = true →
  upsert_tool env tool s w
  = (mkWorld
       (Table (execute s (upsert_values tool') (clock env (ticks w)) rows))
       (S (ticks w)) (stdout w ++ [Tool_str tool'])
       (committed w ++ [(s, upsert_values tool')]),
     Ok tt).
Proof.
  intros Hdb Hc Hb. rewrite (upsert_tool_commits _ _ _ _ Hc).
  by rewrite (commit_tool_table _ _ _ rows).
Qed.

Lemma upsert_tool_overflow tool tool' s (w : World) rows :
  db w = Table rows →
  computed env tool = Ok tool' →
  bindable s (upsert_values tool') = false →
  upsert_tool env tool s w
  = (mkWorld (db w) (ticks w) (stdout w ++ [Tool_str tool']) (committed w),
     Raise int_too_large).
Proof.
  intros Hdb Hc Hb. rewrite (upsert_tool_commits _ _ _ _ Hc).
  by rewrite (commit_tool_overflow _ _ _ rows).
Qed.

(** [upsert_tool] on a tool whose statistics cannot be computed: it raises
    before it prints or commits anything. *)
Lemma upsert_tool_fails tool s (w : World) e :
  computed env tool = Raise e →
  upsert_tool env tool s w = (w, Raise e).
Proof.
  unfold computed, job_summary. intros Hc.
  unfold upsert_tool, mbind, M_bind, bind, App_run_count, summary_stats,
    mret, M_ret, ret, lift. simpl.
  destruct (SUMMARY_SQL _) as [summary|]; simpl in *.
  - by rewrite Hc.
  - by injection Hc as ->.
Qed.

End Statements.

(** C8. Deactivation is non-destructive.  Running DEACTIVATE_TOOL_SQL for a
    tool through [commit_tool] succeeds and keeps every row in its place with
    its run count, its six runtime columns and its three identity columns;
    a row that changes at all is one of that tool, and changes only in
    [active] (now false) and [update_time] (now the time of the statement). *)
Theorem deactivation_non_destructive (env : Env) (tool : Tool) (w : World)
    (rows : list Runtimes.row) :
  db w = Table rows →
  ∃ w' rows',
    commit_tool env tool DEACTIVATE_TOOL_SQL w = (w', Ok tt)
    ∧ db w' = Table rows'
    ∧ length rows' = length rows
    ∧ ∀ (i : nat) r, rows !! i = Some r →
        ∃ r', rows' !! i = Some r'
          ∧ stats r' = stats r
          ∧ Runtimes.tool_id r' = Runtimes.tool_id r
          ∧ Runtimes.base_tool_id r' = Runtimes.base_tool_id r
          ∧ Runtimes.tool_version r' = Runtimes.tool_version r
          ∧ (r' = r
             ∨ (Runtimes.tool_id r = id tool
                ∧ Runtimes.tool_version r = version tool
                ∧ Runtimes.active r' = false
                ∧ Runtimes.update_time r' = clock env (ticks w))).
Proof.
  intros Hdb.
  rewrite (commit_tool_table _ _ _ _ rows Hdb (bindable_deactivate _)).
  eexists _, _. split_and!; [done|done|by apply execute_length|].
  intros i r Hi. rewrite (deactivated_lookup _ _ _ _ _ Hi).
  eexists. split; [done|].
  destruct (matches (upsert_values tool) r) eqn:Hm.
  - split_and!; try done. right. unfold matches in Hm. simpl in Hm.
    apply andb_prop in Hm as [H1 H2].
    apply String.eqb_eq in H1, H2. done.
  - split_and!; try done. by left.
Qed.

Lemma deactivation_non_destructive_witness :
  let r := Runtimes.mk "toolB/2.0" (Some "toolB") "2.0" 5 (Some 3) (Some 1)
             (Some 2) (Some 2) (Some 4) (Some 5) (Some 6) true in
  ∃ w' rows',
    commit_tool
      (mkEnv (λ _, 9) example_datetime [] (λ _ _, 0) (λ _ _, Aggregates.null))
      (mkTool "toolB/2.0" "2.0" (Some "toolB") (Some 5) (Some 3) (Some 1)
         (Some 2) (Some 2) (Some 4) (Some 5) (Some 6) (FlagInt 1))
      DEACTIVATE_TOOL_SQL (mkWorld (Table [r]) 0 [] []) = (w', Ok tt)
    ∧ db w' = Table rows'
    ∧ ∃ r', rows' !! 0%nat = Some r' ∧ stats r' = stats r.
Proof.
  intros r.
  destruct (deactivation_non_destructive
              (mkEnv (λ _, 9) example_datetime [] (λ _ _, 0)
                 (λ _ _, Aggregates.null))
              (mkTool "toolB/2.0" "2.0" (Some "toolB") (Some 5) (Some 3)
                 (Some 1) (Some 2) (Some 2) (Some 4) (Some 5) (Some 6)
                 (FlagInt 1))
              (mkWorld (Table [r]) 0 [] []) [r] eq_refl)
    as (w' & rows' & Hrun & Hdb & _ & Hrows).
  exists w', rows'. split; [exact Hrun|]. split; [exact Hdb|].
  destruct (Hrows 0%nat r eq_refl) as (r' & Hr' & Hstats & _).
  exists r'. split; [exact Hr' | exact Hstats].
Defined.

(** C3, as stated, fails: inserting a record whose [(tool_id, tool_version)]
    is already in the table does not fail. *)
Lemma insert_existing_key_succeeds :
  ¬ (∀ (env : Env) (tool : Tool) (w : World) (rows : list Runtimes.row),
       db w = Table rows →
       (∃ r, r ∈ rows ∧ Runtimes.tool_id r = id tool
             ∧ Runtimes.tool_version r = version tool) →
       ∃ w' e, commit_tool env tool INSERT_TOOL_SQL w = (w', Raise e)).
Proof.
  intros H.
  pose (r := Runtimes.mk "toolA/1.0" (Some "toolA") "1.0" 0 (Some 3) (Some 1)
               (Some 2) (Some 2) (Some 4) (Some 5) (Some 6) true).
  destruct (H (mkEnv (λ _, 9) example_datetime [] (λ _ _, 0)
                 (λ _ _, Aggregates.null))
              (mkTool "toolA/1.0" "1.0" (Some "toolA") None (Some 3) (Some 1)
                 (Some 2) (Some 2) (Some 4) (Some 5) (Some 6) (FlagBool true))
              (mkWorld (Table [r]) 0 [] []) [r] eq_refl)
    as (w' & e & Hrun).
  - exists r. split; [apply list_elem_of_here|done].
  - vm_compute in Hrun. discriminate Hrun.
Qed.

(** C3, amended.  On an existing table, whether INSERT_TOOL_SQL succeeds
    does not depend on the rows already there: it succeeds exactly when the
    run count and the six runtimes of the tool can be bound, each being null
    or an integer of 64 bits.  It then adds one row after the rows already
    there, also when one of them has the same [(tool_id, tool_version)], so
    that the number of rows with that pair grows by one.  Otherwise
    [sqlite3] raises [OverflowError] and nothing changes. *)
Theorem insert_appends (env : Env) (tool : Tool) (w : World)
    (rows : list Runtimes.row) :
  db w = Table rows →
  is_ok (commit_tool env tool INSERT_TOOL_SQL w).2
  = bindable INSERT_TOOL_SQL (upsert_values tool)
  ∧ (bindable INSERT_TOOL_SQL (upsert_values tool) = true →
     ∃ w',
       commit_tool env tool INSERT_TOOL_SQL w = (w', Ok tt)
       ∧ db w'
         = Table
             (rows ++ [inserted (upsert_values tool) (clock env (ticks w))])
       ∧ count_key (id tool) (version tool)
           (rows ++ [inserted (upsert_values tool) (clock env (ticks w))])
         = S (count_key (id tool) (version tool) rows))
  ∧ (bindable INSERT_TOOL_SQL (upsert_values tool) = false →
     commit_tool env tool INSERT_TOOL_SQL w = (w, Raise int_too_large)).
Proof.
  intros Hdb. split_and!.
  - destruct (bindable INSERT_TOOL_SQL (upsert_values tool)) eqn:Hb.
    + by rewrite (commit_tool_table _ _ _ _ rows Hdb Hb).
    + by rewrite (commit_tool_overflow _ _ _ _ rows Hdb Hb).
  - intros Hb. rewrite (commit_tool_table _ _ _ _ rows Hdb Hb).
    eexists. split_and!; [done|done|].
    unfold count_key. rewrite filter_app, length_app. simpl.
    rewrite filter_cons_True by done. simpl. lia.
  - intros Hb. by rewrite (commit_tool_overflow _ _ _ _ rows Hdb Hb).
Qed.

Lemma insert_appends_witness :
  let r := Runtimes.mk "toolA/1.0" (Some "toolA") "1.0" 0 (Some 3) (Some 1)
             (Some 2) (Some 2) (Some 4) (Some 5) (Some 6) true in
  let tool := mkTool "toolA/1.0" "1.0" (Some "toolA") None (Some 3) (Some 1)
                (Some 2) (Some 2) (Some 4) (Some 5) (Some 6) (FlagBool true) in
  let huge := mkTool "toolA/1.0" "1.0" (Some "toolA") None (Some 3) (Some 1)
                (Some 2) (Some 2) (Some 4) (Some 5) (Some (2 ^ 63))
                (FlagBool true) in
  let env := mkEnv (λ _, 9) example_datetime [] (λ _ _, 0)
               (λ _ _, Aggregates.null) in
  let w := mkWorld (Table [r]) 0 [] [] in
  (∃ w',
     commit_tool env tool INSERT_TOOL_SQL w = (w', Ok tt)
     ∧ count_key "toolA/1.0" "1.0" [r; inserted (upsert_values tool) 9]
       = 2%nat)
  ∧ commit_tool env huge INSERT_TOOL_SQL w = (w, Raise int_too_large).
Proof.
  intros r tool huge env w. split.
  - destruct (proj1 (proj2 (insert_appends env tool w [r] eq_refl)) eq_refl)
      as (w' & Hrun & _ & Hcount).
    exists w'. split; [exact Hrun | exact Hcount].
  - exact (proj2 (proj2 (insert_appends env huge w [r] eq_refl)) eq_refl).
Defined.

(** ** Conversion of the summary *)



(** [rint] gives an integer at most one half away from the number. *)
Lemma rint_bounds (q : Q) :
  (inject_Z (rint q) - (1 # 2) <= q ∧ q <= inject_Z (rint q) + (1 # 2))%Q.
Proof.
  destruct q as [n d]. unfold rint, Qle. simpl.
  pose proof (Z.div_mod n (Z.pos d) ltac:(lia)) as Hdm.
  pose proof (Z.mod_pos_bound n (Z.pos d) ltac:(lia)) as Hb.
  destruct (Z.compare_spec (2 * (n mod Z.pos d)) (Z.pos d)) as [He|Hl|Hg].
  - destruct (Z.even (n / Z.pos d)); nia.
  - nia.
  - nia.
Qed.






(** C2 on the code: for a tool without successful runs every column of the
    summary is null, and [update_stats] raises the [TypeError] of
    [int(None)] at its first line; [upsert_tool] raises it too, before it
    prints or commits anything. *)
Theorem zero_runs_update_raises (clk : nat → Z)
    (dt : Z → string → option Z) (cat : list (string * option string))
    (cnt : string → string → Z) (tool : Tool) (s : sql) (w : World) :
  update_stats tool Summary.null = Raise int_of_None
  ∧ upsert_tool (mkEnv clk dt cat cnt (λ _ _, Aggregates.null)) tool s w
    = (w, Raise int_of_None)
  ∧ is_ok (update_stats tool Summary.null) = false
  ∧ SUMMARY_SQL Aggregates.null = Ok Summary.null.
Proof. by destruct w. Qed.

(** ** The reconciliation pass *)

Section Pass.

Variable env : Env.
Variable app : App.

Lemma bind_ok {A B} (m : M A) (f : A → M B) (w w' : World) a :
  m w = (w', Ok a) → (m ≫= f) w = f a w'.
Proof. intros H. unfold mbind, M_bind, bind. by rewrite H. Qed.

Lemma bind_raise {A B} (m : M A) (f : A → M B) (w w' : World) e :
  m w = (w', Raise e) → (m ≫= f) w = (w', Raise e).
Proof. intros H. unfold mbind, M_bind, bind. by rewrite H. Qed.

(** [App] has no attribute [new_tool]. *)
Lemma call_method_new_tool (tool : Tool) :
  call_method env app "new_tool" tool
  = raise (AttributeError "App" "new_tool").
Proof. reflexivity. Qed.

(** The branch of [main] taken with [--tool-id]. *)
Lemma forced_branch (forced : string) (w : World) :
  (parts ← lift (PyStr.unpack2 (PyStr.rsplit1 PyStr.sep forced));
   tool ← lift (Tool_new forced (Some parts.2) None);
   call_method env app "new_tool" tool) w
  = (w, Raise match PyStr.rsplit_last PyStr.sep forced with
              | Some _ => AttributeError "App" "new_tool"
              | None =>
                  ValueError
                    "not enough values to unpack (expected 2, got 1)"
              end).
Proof.
  unfold PyStr.rsplit1.
  destruct (PyStr.rsplit_last PyStr.sep forced) as [[h t]|] eqn:E.
  - apply rsplit_last_spec in E as [Hid Ht].
    erewrite bind_ok by reflexivity. simpl.
    erewrite bind_ok; [by rewrite call_method_new_tool|].
    unfold lift, Tool_new, Tool_init.
    rewrite (set_base_id_split _ h t); [|done..]. simpl.
    by rewrite String.eqb_refl.
  - by erewrite bind_raise by reflexivity.
Qed.

Lemma deactivate_loop_unbound (S D : gset string) (w : World) :
  to_deactivate S D ≠ ∅ →
  deactivate_loop env None S D w = (w, Raise (UnboundLocalError "tool")).
Proof.
  intros Hne. unfold deactivate_loop.
  destruct (elements (to_deactivate S D)) as [|k l] eqn:E.
  - by apply elements_empty_inv, leibniz_equiv in E.
  - done.
Qed.

Lemma deactivate_loop_nothing tool (S D : gset string) (w : World) :
  to_deactivate S D = ∅ →
  deactivate_loop env tool S D w = (w, Ok tt).
Proof.
  intros He. unfold deactivate_loop. by rewrite He, elements_empty.
Qed.

Lemma Dict_keys_set (d : Dict.t) k v :
  Dict.keys (Dict.set d k v) = {[k]} ∪ Dict.keys d.
Proof.
  unfold Dict.keys. induction d as [|[k' v'] d IH]; simpl.
  - done.
  - destruct (String.eqb k' k) eqn:E; simpl.
    + apply String.eqb_eq in E as ->. set_solver.
    + rewrite IH. set_solver.
Qed.

Lemma Dict_keys_of_tools (tools : list Tool) :
  Dict.keys (Dict.of_tools tools) = list_to_set (map key tools).
Proof.
  unfold Dict.of_tools.
  assert (H : ∀ d, Dict.keys (fold_left (λ d tool, Dict.set d (key tool) tool)
                                tools d)
                   = list_to_set (map key tools) ∪ Dict.keys d).
  { induction tools as [|t tools IH]; intros d; simpl.
    - set_solver.
    - rewrite IH, Dict_keys_set. set_solver. }
  rewrite H. unfold Dict.keys. simpl. set_solver.
Qed.

Lemma map_result_elem {A B} (f : A → result B) (l : list A) (ys : list B) x :
  map_result f l = Ok ys → x ∈ l → ∃ y, f x = Ok y ∧ y ∈ ys.
Proof.
  revert ys. induction l as [|a l IH]; intros ys; simpl.
  - intros _ Hx. by apply elem_of_nil in Hx.
  - destruct (f a) as [y|] eqn:Ea; simpl; [|done].
    destruct (map_result f l) as [ys'|]; simpl; [|done].
    intros [= <-] Hx. apply elem_of_cons in Hx as [->|Hx].
    + exists y. split; [done|]. apply list_elem_of_here.
    + destruct (IH ys' eq_refl Hx) as (y' & Hy' & Hin).
      exists y'. split; [done|]. by apply list_elem_of_further.
Qed.

Lemma map_result_elem_inv {A B} (f : A → result B) (l : list A)
    (ys : list B) y :
  map_result f l = Ok ys → y ∈ ys → ∃ x, x ∈ l ∧ f x = Ok y.
Proof.
  revert ys. induction l as [|a l IH]; intros ys; simpl.
  - intros [= <-] Hy. by apply elem_of_nil in Hy.
  - destruct (f a) as [b|] eqn:Ea; simpl; [|done].
    destruct (map_result f l) as [ys'|]; simpl; [|done].
    intros [= <-] Hy. apply elem_of_cons in Hy as [->|Hy].
    + exists a. split; [apply list_elem_of_here | done].
    + destruct (IH ys' eq_refl Hy) as (x & Hx & Hfx).
      exists x. split; [by apply list_elem_of_further | done].
Qed.

(** [get_db_tools] on an existing table: it reads the clock once when
    [for_update] is set, and changes nothing else. *)
Lemma get_db_tools_table (for_update : bool) (w : World) rows :
  db w = Table rows →
  get_db_tools env app for_update w
  = (mkWorld (db w) (if for_update then S (ticks w) else ticks w) (stdout w)
       (committed w),
     bind_result
       (map_result tool_factory
          (select_active for_update
             (if for_update then threshold env app (clock env (ticks w))
              else None)
             rows))
       (λ tools, Ok (Dict.of_tools tools))).
Proof.
  intros Hdb. unfold get_db_tools, mbind, M_bind, bind, table_rows.
  rewrite Hdb. destruct w as [d n out cm]. simpl in *. subst d.
  destruct for_update; simpl;
    by destruct (map_result tool_factory _).
Qed.

Lemma get_db_tools_stale (w w' : World) rows stale :
  db w = Table rows →
  get_db_tools env app true w = (w', Ok stale) →
  ∃ tools,
    map_result tool_factory
      (select_active true (threshold env app (clock env (ticks w))) rows)
    = Ok tools
    ∧ stale = Dict.of_tools tools.
Proof.
  intros Hdb. rewrite (get_db_tools_table true w rows Hdb).
  destruct (map_result tool_factory _) as [tools|]; simpl; [|done].
  intros [= _ <-]. by exists tools.
Qed.

(** Nothing is before a null threshold. *)
Lemma select_active_null rows : select_active true None rows = [].
Proof.
  unfold select_active. induction rows as [|r rows IH]; [done|].
  rewrite filter_cons. destruct (decide _) as [[_ H]|_]; [|exact IH].
  by specialize (H eq_refl).
Qed.

(** The keys of the refresh candidates are those of the active rows of
    the table, as it stands when the query runs, that were last written
    before the threshold. *)
Lemma stale_keys (w w' : World) rows stale :
  db w = Table rows →
  get_db_tools env app true w = (w', Ok stale) →
  ∀ k, k ∈ Dict.keys stale ↔
       ∃ r t, r ∈ rows ∧ Runtimes.active r = true
              ∧ before (threshold env app (clock env (ticks w)))
                  (Runtimes.update_time r) = true
              ∧ tool_factory r = Ok t ∧ key t = k.
Proof.
  intros Hdb Hq k.
  destruct (get_db_tools_stale w w' rows stale Hdb Hq)
    as (tools & Htools & ->).
  rewrite Dict_keys_of_tools, elem_of_list_to_set, list_elem_of_fmap.
  split.
  - intros (t & -> & Ht).
    destruct (map_result_elem_inv _ _ _ _ Htools Ht) as (r & Hr & Hfr).
    apply list_elem_of_filter in Hr as [[Hact Hold] Hr].
    exists r, t. split_and!; auto.
  - intros (r & t & Hr & Hact & Hold & Hfr & <-).
    assert (Hsel : r ∈ select_active true
                         (threshold env app (clock env (ticks w))) rows).
    { apply list_elem_of_filter. split; [|done]. split; [done|]. by intros _. }
    destruct (map_result_elem _ _ _ _ Htools Hsel) as (t' & Hfr' & Ht').
    exists t'. split; [congruence | done].
Qed.

End Pass.

(** C1 on the code: a pass that has an active key to deactivate does not
    deactivate it.  Once the catalog and the cache are read and the
    insertions are done, the second loop reads the local variable [tool]
    before anything is assigned to it: the pass stops with
    [UnboundLocalError], in the world the insertions left, with no
    DEACTIVATE_TOOL_SQL run and no line printed for the key. *)
Theorem removed_tool_not_deactivated (env : Env) (app : App)
    (w w1 w2 w3 : World) (server_tools db_tools : Dict.t) :
  get_server_tools env w = (w1, Ok server_tools) →
  get_db_tools env app false w1 = (w2, Ok db_tools) →
  insert_loop env server_tools (Dict.keys server_tools) (Dict.keys db_tools) w2
  = (w3, Ok tt) →
  to_deactivate (Dict.keys server_tools) (Dict.keys db_tools) ≠ ∅ →
  handle_tool_changes env app w = (w3, Raise (UnboundLocalError "tool")).
Proof.
  intros Hs Hd Hi Hne.
  unfold handle_tool_changes, mbind, M_bind, bind.
  rewrite Hs, Hd, Hi. by rewrite deactivate_loop_unbound.
Qed.

Lemma removed_tool_not_deactivated_witness :
  let toolB := Runtimes.mk "toolB/2.0" (Some "toolB") "2.0" 5 (Some 3)
                 (Some 1) (Some 2) (Some 2) (Some 4) (Some 5) (Some 6) true in
  let w := mkWorld (Table [toolB]) 0 [] [] in
  handle_tool_changes
    (mkEnv (λ _, 9) example_datetime [] (λ _ _, 0) (λ _ _, Aggregates.null))
    (mkApp "runtimes.sqlite" None "https://usegalaxy.org" default_older_than)
    w
  = (w, Raise (UnboundLocalError "tool")).
Proof.
  intros toolB w.
  apply (removed_tool_not_deactivated
           (mkEnv (λ _, 9) example_datetime [] (λ _ _, 0)
              (λ _ _, Aggregates.null))
           (mkApp "runtimes.sqlite" None "https://usegalaxy.org"
              default_older_than)
           w w w w []
           [("toolB/2.0",
             mkTool "toolB/2.0" "2.0" (Some "toolB") (Some 5) (Some 3) (Some 1)
               (Some 2) (Some 2) (Some 4) (Some 5) (Some 6) (FlagInt 1))]).
  - reflexivity.
  - reflexivity.
  - reflexivity.
  - vm_compute. intros H. discriminate H.
Defined.

(** C4 on the code: with [--tool-id] given, [main] never completes.  It
    creates the table when the file is missing, then stops with the
    [ValueError] of the tuple assignment when the id has no separator, and
    otherwise with [AttributeError]: it calls [new_tool], which [App] does
    not define.  No statistics are computed, printed or committed. *)
Theorem forced_tool_id_raises (env : Env) (args : Args) (w : World)
    (forced : string) :
  truthy (tool_id args) = Some forced →
  ∃ w' e,
    main env args w = (w', Raise e)
    ∧ committed w' = committed w
    ∧ stdout w' = stdout w
    ∧ (PyStr.contains PyStr.sep forced = true →
       e = AttributeError "App" "new_tool")
    ∧ (PyStr.contains PyStr.sep forced = false →
       e = ValueError "not enough values to unpack (expected 2, got 1)").
Proof.
  intros Hforced.
  set (w0 := match db w with
             | Absent => mkWorld (Table []) (ticks w) (stdout w) (committed w)
             | _ => w
             end).
  assert (Hw0 : committed w0 = committed w ∧ stdout w0 = stdout w).
  { unfold w0. by destruct (db w). }
  assert (Hmain : main env args w
                  = (w0,
                     Raise match PyStr.rsplit_last PyStr.sep forced with
                           | Some _ => AttributeError "App" "new_tool"
                           | None =>
                               ValueError
                                 "not enough values to unpack (expected 2, got 1)"
                           end)).
  { unfold main. rewrite Hforced.
    erewrite bind_ok by reflexivity. unfold w0.
    destruct (db w) eqn:Hdb.
    - erewrite bind_ok; [apply forced_branch|].
      unfold make_db. by rewrite Hdb.
    - erewrite bind_ok; [apply forced_branch|]. done.
    - erewrite bind_ok; [apply forced_branch|]. done. }
  exists w0. eexists. split; [exact Hmain|].
  destruct Hw0 as [? ?]. split_and!; try done.
  - intros Hc. destruct (PyStr.rsplit_last PyStr.sep forced) eqn:E; [done|].
    apply rsplit_last_none in E. congruence.
  - intros Hc. apply rsplit_last_none in Hc. by rewrite Hc.
Qed.

Lemma forced_tool_id_raises_witness :
  ∃ w',
    main (mkEnv (λ _, 9) example_datetime [("toolA/1.0", Some "1.0")]
            (λ _ _, 4) (λ _ _, Aggregates.null))
      (mkArgs None default_older_than "https://usegalaxy.org"
         (Some "toolA/1.0") "runtimes.sqlite")
      (mkWorld Absent 0 [] [])
    = (w', Raise (AttributeError "App" "new_tool"))
    ∧ committed w' = [].
Proof.
  destruct (forced_tool_id_raises
              (mkEnv (λ _, 9) example_datetime [("toolA/1.0", Some "1.0")]
                 (λ _ _, 4) (λ _ _, Aggregates.null))
              (mkArgs None default_older_than "https://usegalaxy.org"
                 (Some "toolA/1.0") "runtimes.sqlite")
              (mkWorld Absent 0 [] []) "toolA/1.0" eq_refl)
    as (w' & e & Hrun & Hc & _ & He & _).
  exists w'. rewrite Hrun, (He eq_refl). split; [reflexivity | exact Hc].
Defined.

(** C10 on the code.  The refresh candidates do come from a query of their
    own, run on the world the insertions left; but what it selects is not
    what the staleness window promises.  A pass with a key to deactivate
    stops before the query is issued.  In a pass without one, the rest of
    [handle_tool_changes] is the query [get_db_tools(for_update=True)]
    followed by the refresh of what it returns, and the keys it returns are
    those of the active rows written before [datetime('now', '-' +
    older_than)].  When SQLite does not accept that modifier, as it does
    not accept the default [-1 week], the threshold is null: no row is
    selected, however old, and the pass ends without refreshing
    anything. *)
Theorem refresh_follows_commits (env : Env) (app : App)
    (w w1 w2 w3 : World) (server_tools db_tools : Dict.t)
    (rows : list Runtimes.row) :
  get_server_tools env w = (w1, Ok server_tools) →
  get_db_tools env app false w1 = (w2, Ok db_tools) →
  insert_loop env server_tools (Dict.keys server_tools) (Dict.keys db_tools) w2
  = (w3, Ok tt) →
  db w3 = Table rows →
  (to_deactivate (Dict.keys server_tools) (Dict.keys db_tools) ≠ ∅ →
   handle_tool_changes env app w = (w3, Raise (UnboundLocalError "tool")))
  ∧ (to_deactivate (Dict.keys server_tools) (Dict.keys db_tools) = ∅ →
     handle_tool_changes env app w
     = (stale ← get_db_tools env app true; refresh_loop env stale) w3
     ∧ (∀ w5 stale,
          get_db_tools env app true w3 = (w5, Ok stale) →
          handle_tool_changes env app w = refresh_loop env stale w5
          ∧ ∀ k, k ∈ Dict.keys stale ↔
               ∃ r t, r ∈ rows ∧ Runtimes.active r = true
                      ∧ before (threshold env app (clock env (ticks w3)))
                          (Runtimes.update_time r) = true
                      ∧ tool_factory r = Ok t ∧ key t = k)
     ∧ (threshold env app (clock env (ticks w3)) = None →
        get_db_tools env app true w3
        = (mkWorld (db w3) (S (ticks w3)) (stdout w3) (committed w3), Ok [])
        ∧ handle_tool_changes env app w
          = (mkWorld (db w3) (S (ticks w3)) (stdout w3) (committed w3),
             Ok tt))).
Proof.
  intros Hs Hd Hi Hdb. split.
  - intros Hne. unfold handle_tool_changes, mbind, M_bind, bind.
    rewrite Hs, Hd, Hi. by rewrite deactivate_loop_unbound.
  - intros He.
    assert (Hpass : handle_tool_changes env app w
                    = (stale ← get_db_tools env app true;
                       refresh_loop env stale) w3).
    { unfold handle_tool_changes.
      erewrite bind_ok by exact Hs. erewrite bind_ok by exact Hd. simpl.
      erewrite bind_ok by exact Hi.
      erewrite bind_ok by (by apply deactivate_loop_nothing). done. }
    split_and!.
    + exact Hpass.
    + intros w5 stale Hq. split.
      * rewrite Hpass. by erewrite bind_ok by exact Hq.
      * by apply (stale_keys env app w3 w5 rows stale).
    + intros Hth.
      assert (Hq : get_db_tools env app true w3
                   = (mkWorld (db w3) (S (ticks w3)) (stdout w3)
                        (committed w3), Ok [])).
      { rewrite (get_db_tools_table env app true w3 rows Hdb).
        by rewrite Hth, select_active_null. }
      split; [exact Hq|]. rewrite Hpass. by erewrite bind_ok by exact Hq.
Qed.

Lemma refresh_follows_commits_witness :
  let a := Aggregates.mk (Some (Finite (1 # 1))) (Some (Finite (2 # 1)))
             (Some (Finite (129 # 10))) (Some (Finite (129 # 10)))
             (Some (Finite (15 # 1))) (Some (Finite (199 # 10)))
             (Some (Finite (201 # 10))) (Some (Finite (21 # 1)))
             (Some (Finite (54 # 1))) (Some (Finite (7 # 1))) in
  let env := mkEnv (λ n, 1000000000 + Z.of_nat n) example_datetime
               [("toolA/1.0", Some "1.0")] (λ _ _, 4) (λ _ _, a) in
  let app := mkApp "runtimes.sqlite" None "https://usegalaxy.org"
               default_older_than in
  let r := Runtimes.mk "toolA/1.0" (Some "toolA") "1.0" 0 (Some 3) (Some 1)
             (Some 2) (Some 2) (Some 4) (Some 5) (Some 6) true in
  let w := mkWorld (Table [r]) 0 [] [] in
  Runtimes.active r = true
  ∧ Runtimes.update_time r < clock env 0 - 7 * 86400
  ∧ handle_tool_changes env app w = (mkWorld (Table [r]) 1 [] [], Ok tt).
Proof.
  intros a env app r w.
  pose (t := mkTool "toolA/1.0" "1.0" (Some "toolA") None (Some (-1))
               None None None None None None (FlagBool true)).
  pose (tr := mkTool "toolA/1.0" "1.0" (Some "toolA") (Some 0) (Some 3)
                (Some 1) (Some 2) (Some 2) (Some 4) (Some 5) (Some 6)
                (FlagInt 1)).
  assert (Hs : get_server_tools env w = (w, Ok [("toolA/1.0", t)]))
    by (vm_compute; reflexivity).
  assert (Hd : get_db_tools env app false w = (w, Ok [("toolA/1.0", tr)]))
    by (vm_compute; reflexivity).
  assert (Hi : insert_loop env [("toolA/1.0", t)]
                 (Dict.keys [("toolA/1.0", t)])
                 (Dict.keys [("toolA/1.0", tr)]) w
               = (w, Ok tt))
    by (vm_compute; reflexivity).
  assert (He : to_deactivate (Dict.keys [("toolA/1.0", t)])
                 (Dict.keys [("toolA/1.0", tr)]) = ∅)
    by (vm_compute; reflexivity).
  split; [reflexivity|]. split; [reflexivity|].
  destruct (refresh_follows_commits env app w w w w [("toolA/1.0", t)]
              [("toolA/1.0", tr)] [r] Hs Hd Hi eq_refl) as [_ Hrest].
  destruct (Hrest He) as (_ & _ & Hnull).
  exact (proj2 (Hnull eq_refl)).
Defined.

(** * Further properties *)

(** ** Tools *)

Section ToolInvariant.

Implicit Types (i v b : string) (t : Tool).

Lemma startswith_refl i : PyStr.startswith i i = true.
Proof.
  unfold PyStr.startswith. induction i as [|a i IH]; simpl; [done|].
  destruct (ascii_dec a a); [exact IH | congruence].
Qed.

Lemma with_base_id_same t b : base_id t = Some b → with_base_id t b = t.
Proof. destruct t. simpl. by intros ->. Qed.

(** What [set_base_id] leaves when it succeeds. *)
Lemma set_base_id_ok t t' :
  set_base_id t = Ok t' →
  ∃ b, t' = with_base_id t b ∧ PyStr.startswith (id t) b = true.
Proof.
  unfold set_base_id. destruct (base_id t) as [b|] eqn:Hb.
  - destruct (PyStr.startswith (id t) b) eqn:Hs; [|done].
    intros [= <-]. exists b. by rewrite with_base_id_same.
  - destruct (PyStr.contains PyStr.sep (id t)).
    + unfold PyStr.rsplit1.
      destruct (PyStr.rsplit_last PyStr.sep (id t)) as [[h idv]|] eqn:E;
        simpl; [|done].
      destruct (String.eqb (version t) idv); [|done].
      intros [= <-]. exists h. split; [done|].
      apply rsplit_last_spec in E as [-> _]. apply startswith_app.
    + intros [= <-]. exists (id t). split; [done|]. apply startswith_refl.
Qed.

Lemma key_split b v :
  PyStr.contains PyStr.sep v = false →
  PyStr.rsplit_last PyStr.sep (b +:+ "/" +:+ v) = Some (b, v).
Proof. intros Hv. by apply (rsplit_last_app PyStr.sep b v). Qed.

End ToolInvariant.

(** X1. A [Tool] is never built without a version.  One that is built has
    the id, the version and the other arguments it was given, and a base id
    that is a prefix of its id, whichever branch of [set_base_id] set it. *)
Theorem tool_construction (i : string) (vo bo : option string)
    (ut rc mn md me p95 p99 mx : option Z) (act : flag) :
  (vo = None →
   Tool_init i vo bo ut rc mn md me p95 p99 mx act
   = Raise (AssertionError None))
  ∧ (∀ t, Tool_init i vo bo ut rc mn md me p95 p99 mx act = Ok t →
       ∃ b r, vo = Some (version t)
              ∧ t = mkTool i (version t) (Some b) ut rc mn md me p95 p99 mx act
              ∧ i = b +:+ r
              ∧ (∀ b0, bo = Some b0 → b = b0)).
Proof.
  split; [by intros ->|].
  intros t. unfold Tool_init. destruct vo as [v|]; [|done]. intros Ht.
  destruct (set_base_id_ok _ _ Ht) as (b & -> & Hpre). simpl in *.
  apply startswith_inv in Hpre as [r Hr].
  exists b, r. split_and!; try done.
  intros b0 ->. unfold set_base_id in Ht. simpl in Ht.
  destruct (PyStr.startswith i b0); [|done]. by injection Ht as ->.
Qed.

Lemma tool_construction_witness :
  ∃ b r, Some "1.0" = Some "1.0"
         ∧ mkTool "toolA/1.0" "1.0" (Some "toolA") None (Some (-1)) None None
             None None None None (FlagBool true)
           = mkTool "toolA/1.0" "1.0" (Some b) None (Some (-1)) None None
               None None None None (FlagBool true)
         ∧ "toolA/1.0" = b +:+ r
         ∧ (∀ b0, (None : option string) = Some b0 → b = b0).
Proof.
  exact (proj2 (tool_construction "toolA/1.0" (Some "1.0") None None
                  (Some (-1)) None None None None None None (FlagBool true))
           (mkTool "toolA/1.0" "1.0" (Some "toolA") None (Some (-1)) None None
              None None None None (FlagBool true)) eq_refl).
Defined.

(** X2. The key names the base id and the version of a tool when versions
    hold no separator: two such tools with one key have the same base id and
    the same version.  A version with a separator breaks this: the tools
    [("a", "b/c")] and [("a/b/c", "c")] have different base ids and versions
    and the same key. *)
Theorem key_injective (t1 t2 : Tool) (b1 b2 : string) :
  base_id t1 = Some b1 → base_id t2 = Some b2 →
  PyStr.contains PyStr.sep (version t1) = false →
  PyStr.contains PyStr.sep (version t2) = false →
  (key t1 = key t2 ↔ b1 = b2 ∧ version t1 = version t2)
  ∧ ∃ u1 u2, Tool_new "a" (Some "b/c") None = Ok u1
             ∧ Tool_new "a/b/c" (Some "c") None = Ok u2
             ∧ key u1 = key u2
             ∧ base_id u1 ≠ base_id u2 ∧ version u1 ≠ version u2.
Proof.
  intros H1 H2 Hv1 Hv2. split.
  - unfold key. rewrite H1, H2. simpl. split.
    + intros Hk.
      pose proof (key_split b1 (version t1) Hv1) as E1.
      pose proof (key_split b2 (version t2) Hv2) as E2.
      simpl in E1, E2. rewrite Hk, E2 in E1. by injection E1 as -> ->.
    + by intros [-> ->].
  - eexists _, _. split_and!; [reflexivity|reflexivity|reflexivity|done|done].
Qed.

Lemma key_injective_witness :
  (key (mkTool "toolA/1.0" "1.0" (Some "toolA") None None None None None None
          None None (FlagBool true))
   = key (mkTool "toolA" "1.0" (Some "toolA") None None None None None None
            None None (FlagBool true)))
  ↔ "toolA" = "toolA" ∧ "1.0" = "1.0".
Proof.
  exact (proj1 (key_injective
                  (mkTool "toolA/1.0" "1.0" (Some "toolA") None None None None
                     None None None None (FlagBool true))
                  (mkTool "toolA" "1.0" (Some "toolA") None None None None
                     None None None None (FlagBool true))
                  "toolA" "toolA" eq_refl eq_refl eq_refl eq_refl)).
Defined.

(** X3. What the program writes it can read back.  The row INSERT_TOOL_SQL
    stores for a tool whose base id is a prefix of its id is turned by
    [tool_factory] into the same tool, with the time of the statement as
    its [update_time] and the integer 1 of SQLite as [active]; its key is
    the key of the tool written, and its statement parameters are those
    that were written. *)
Theorem written_row_reads_back (t : Tool) (b r : string) (now : Z) :
  base_id t = Some b → id t = b +:+ r →
  ∃ t', tool_factory (inserted (upsert_values t) now) = Ok t'
        ∧ t' = mkTool (id t) (version t) (Some b) (Some now) (run_count t)
                 (min_runtime t) (median_runtime t) (mean_runtime t)
                 (pct95_runtime t) (pct99_runtime t) (max_runtime t)
                 (FlagInt 1)
        ∧ key t' = key t
        ∧ upsert_values t' = upsert_values t.
Proof.
  intros Hb Hid. eexists. split.
  - unfold tool_factory, Tool_init. simpl.
    rewrite (set_base_id_explicit _ b) by (simpl; exact Hb). simpl.
    rewrite Hid, startswith_app. rewrite <- Hid. reflexivity.
  - split_and!.
    + by rewrite Hb.
    + unfold key. simpl. by rewrite Hb.
    + unfold upsert_values. simpl. by rewrite Hb.
Qed.

Lemma written_row_reads_back_witness :
  ∃ t', tool_factory
          (inserted
             (upsert_values
                (mkTool "toolA/1.0" "1.0" (Some "toolA") None (Some 4)
                   (Some 1) (Some 12) (Some 13) (Some 19) (Some 20) (Some 21)
                   (FlagBool true))) 9) = Ok t'
        ∧ key t' = "toolA/1.0"
        ∧ active t' = FlagInt 1.
Proof.
  destruct (written_row_reads_back
              (mkTool "toolA/1.0" "1.0" (Some "toolA") None (Some 4) (Some 1)
                 (Some 12) (Some 13) (Some 19) (Some 20) (Some 21)
                 (FlagBool true))
              "toolA" "/1.0" 9 eq_refl eq_refl) as (t' & Ht' & Heq & Hk & _).
  exists t'. split; [exact Ht'|]. split; [exact Hk|]. by rewrite Heq.
Defined.

Section Conversions.

Lemma py_int_ok x : convertible x ↔ is_ok (py_int x) = true.
Proof. by destruct x as [| |[| |]]. Qed.

Lemma py_int_raise x e :
  py_int x = Raise e →
  (x = PyNone ∧ e = int_of_None)
  ∨ (x = PyDecimal NaN ∧ e = int_of_NaN)
  ∨ (∃ negative, x = PyDecimal (Infinity negative)) ∧ e = int_of_Infinity.
Proof.
  destruct x as [| |[| |]]; simpl; intros [= <-];
    [left | right; left | right; right]; split; try done.
  by eexists.
Qed.

End Conversions.

(** X4. [update_stats] succeeds exactly when each of the six columns it
    reads is an integer or a finite decimal.  It then sets the six runtime
    attributes to the results of [int] on those columns and changes nothing
    else: id, version, base id, run count, update time, active and key
    stay.  Otherwise it raises what [int] raises on the first column, in
    the order [min], [median], [mean], [perc_95], [perc_99], [max], that
    does not convert: the [TypeError] of [None], the [ValueError] of NaN or
    the [OverflowError] of an infinity.  The columns [quant_1st],
    [quant_3rd], [sum] and [stddev] have no effect. *)
Theorem update_stats_outcome (self : Tool) (s : Summary.t) :
  (complete s ↔ is_ok (update_stats self s) = true)
  ∧ (∀ e, update_stats self s = Raise e →
       e = int_of_None ∨ e = int_of_NaN ∨ e = int_of_Infinity)
  ∧ (∀ e, update_stats self s = Raise e →
       ∃ cols x rest,
         [ Summary.min s; Summary.median s; Summary.mean s;
           Summary.perc_95 s; Summary.perc_99 s; Summary.max s ]
         = (cols ++ x :: rest)%list
         ∧ Forall convertible cols ∧ py_int x = Raise e)
  ∧ (∀ t, update_stats self s = Ok t →
       map Ok [ min_runtime t; median_runtime t; mean_runtime t;
                pct95_runtime t; pct99_runtime t; max_runtime t ]
       = map (λ x, bind_result (py_int x) (λ z, Ok (Some z)))
           [ Summary.min s; Summary.median s; Summary.mean s;
             Summary.perc_95 s; Summary.perc_99 s; Summary.max s ]
       ∧ id t = id self ∧ version t = version self
       ∧ base_id t = base_id self
       ∧ update_time t = update_time self ∧ run_count t = run_count self
       ∧ active t = active self ∧ key t = key self)
  ∧ (∀ q1 q3 sm sd,
       update_stats self
         (Summary.mk (Summary.min s) q1 (Summary.median s) (Summary.mean s)
            q3 (Summary.perc_95 s) (Summary.perc_99 s) (Summary.max s) sm sd)
       = update_stats self s).
Proof.
  unfold complete, update_stats.
  destruct s as [mn q1 md me q3 p95 p99 mx sm sd]. simpl.
  split_and!.
  - rewrite !py_int_ok.
    destruct (py_int mn), (py_int md), (py_int me), (py_int p95),
      (py_int p99), (py_int mx); simpl; intuition congruence.
  - intros e He.
    assert (∃ x, py_int x = Raise e) as [x Hx].
    { destruct (py_int mn) eqn:E1; simpl in He;
        [|injection He as <-; by exists mn].
      destruct (py_int md) eqn:E2; simpl in He;
        [|injection He as <-; by exists md].
      destruct (py_int me) eqn:E3; simpl in He;
        [|injection He as <-; by exists me].
      destruct (py_int p95) eqn:E4; simpl in He;
        [|injection He as <-; by exists p95].
      destruct (py_int p99) eqn:E5; simpl in He;
        [|injection He as <-; by exists p99].
      destruct (py_int mx) eqn:E6; simpl in He; [done|].
      injection He as <-. by exists mx. }
    destruct (py_int_raise x e Hx) as [[_ ->]|[[_ ->]|[_ ->]]]; auto.
  - intros e He.
    assert (Hc : ∀ x z, py_int x = Ok z → convertible x).
    { intros x z Hx. apply py_int_ok. by rewrite Hx. }
    destruct (py_int mn) eqn:E1; simpl in He;
      [|exists [], mn, [md; me; p95; p99; mx]; split_and!;
        [done|constructor|congruence]].
    destruct (py_int md) eqn:E2; simpl in He;
      [|exists [mn], md, [me; p95; p99; mx]; split_and!;
        [done|repeat constructor; eauto|congruence]].
    destruct (py_int me) eqn:E3; simpl in He;
      [|exists [mn; md], me, [p95; p99; mx]; split_and!;
        [done|repeat constructor; eauto|congruence]].
    destruct (py_int p95) eqn:E4; simpl in He;
      [|exists [mn; md; me], p95, [p99; mx]; split_and!;
        [done|repeat constructor; eauto|congruence]].
    destruct (py_int p99) eqn:E5; simpl in He;
      [|exists [mn; md; me; p95], p99, [mx]; split_and!;
        [done|repeat constructor; eauto|congruence]].
    destruct (py_int mx) eqn:E6; simpl in He; [done|].
    exists [mn; md; me; p95; p99], mx, []. split_and!;
      [done|repeat constructor; eauto|congruence].
  - intros t.
    destruct (py_int mn), (py_int md), (py_int me), (py_int p95),
      (py_int p99), (py_int mx); simpl; try done.
    by intros [= <-].
  - done.
Qed.

Lemma update_stats_outcome_witness :
  let tool := mkTool "toolA/1.0" "1.0" (Some "toolA") None (Some 4) None None
                None None None None (FlagBool true) in
  let good := Summary.mk (PyDecimal (Finite (1 # 1))) (PyInt 2) (PyInt 13)
                (PyDecimal (Finite (129 # 10))) (PyInt 15) (PyInt 20)
                (PyInt 20) (PyDecimal (Finite (21 # 1))) PyNone PyNone in
  let bad := Summary.mk (PyDecimal (Finite (1 # 1))) (PyInt 2) (PyInt 13)
               (PyDecimal NaN) (PyInt 15) (PyInt 20) (PyInt 20)
               (PyDecimal (Infinity false)) PyNone PyNone in
  is_ok (update_stats tool good) = true
  ∧ ∃ cols x rest,
      [ PyDecimal (Finite (1 # 1)); PyInt 13; PyDecimal NaN; PyInt 20;
        PyInt 20; PyDecimal (Infinity false) ] = (cols ++ x :: rest)%list
      ∧ Forall convertible cols ∧ py_int x = Raise int_of_NaN.
Proof.
  intros tool good bad. split.
  - apply (proj1 (proj1 (update_stats_outcome tool good))).
    vm_compute. tauto.
  - exact (proj1 (proj2 (proj2 (update_stats_outcome tool bad))) int_of_NaN
             eq_refl).
Defined.

(** ** Statements and listings *)

Section Listings.

Variable env : Env.
Variable app : App.

Lemma matches_row_of tool r :
  matches (upsert_values tool) r = true ↔ row_of tool r.
Proof.
  unfold matches, row_of. simpl.
  rewrite andb_true_iff, !String.eqb_eq. done.
Qed.

Lemma matches_not_row_of tool r :
  matches (upsert_values tool) r = false ↔ ¬ row_of tool r.
Proof.
  rewrite <- matches_row_of.
  destruct (matches (upsert_values tool) r); split; congruence.
Qed.

Lemma select_active_false threshold rows :
  select_active false threshold rows
  = filter (λ r, Runtimes.active r = true) rows.
Proof.
  unfold select_active. apply list_filter_iff. intros r. split.
  - by intros [? _].
  - intros ?. split; [done|]. intros [=].
Qed.

Lemma map_result_snoc {A B} (f : A → result B) (l : list A) x :
  map_result f (l ++ [x])
  = bind_result (map_result f l) (λ ys,
    bind_result (f x) (λ y, Ok (ys ++ [y])%list)).
Proof.
  induction l as [|a l IH]; simpl.
  - by destruct (f x).
  - destruct (f a) as [b|]; simpl; [|done]. rewrite IH.
    destruct (map_result f l) as [ys|]; simpl; [|done].
    by destruct (f x).
Qed.

Lemma map_result_weaken {A B} (f : A → result B) (P Q : A → Prop)
    `{∀ x, Decision (P x)} `{∀ x, Decision (Q x)} (l : list A) ys :
  (∀ x, Q x → P x) →
  map_result f (filter P l) = Ok ys →
  ∃ ys', map_result f (filter Q l) = Ok ys' ∧ ∀ y, y ∈ ys' → y ∈ ys.
Proof.
  intros HQP. revert ys. induction l as [|a l IH]; intros ys.
  - intros [= <-]. by exists [].
  - rewrite !filter_cons. destruct (decide (P a)) as [HP|HP].
    + simpl. destruct (f a) as [b|] eqn:Ea; simpl; [|done].
      destruct (map_result f (filter P l)) as [ys0|]; simpl; [|done].
      intros [= <-]. destruct (IH ys0 eq_refl) as (ys' & Hys' & Hsub).
      destruct (decide (Q a)).
      * simpl. rewrite Ea, Hys'. simpl. eexists. split; [done|].
        intros y Hy. apply elem_of_cons in Hy as [->|Hy];
          [apply list_elem_of_here | by apply list_elem_of_further, Hsub].
      * exists ys'. split; [done|].
        intros y Hy. by apply list_elem_of_further, Hsub.
    + intros Hys. destruct (decide (Q a)) as [HQ|]; [destruct HP; by apply HQP|].
      by apply IH.
Qed.

Lemma Dict_get_set (d : Dict.t) k v : Dict.get (Dict.set d k v) k = Ok v.
Proof.
  induction d as [|[k' v'] d IH]; simpl.
  - by rewrite String.eqb_refl.
  - destruct (String.eqb k' k) eqn:E; simpl.
    + by rewrite String.eqb_refl.
    + by rewrite E.
Qed.

Lemma of_tools_snoc (tools : list Tool) t :
  Dict.of_tools (tools ++ [t]) = Dict.set (Dict.of_tools tools) (key t) t.
Proof. unfold Dict.of_tools. by rewrite fold_left_app. Qed.

Lemma select_after_deactivate tool now0 (for_update : bool) threshold rows :
  select_active for_update threshold
    (execute DEACTIVATE_TOOL_SQL (upsert_values tool) now0 rows)
  = filter (λ r, ¬ row_of tool r) (select_active for_update threshold rows).
Proof.
  unfold select_active. simpl.
  set (P := λ r, Runtimes.active r = true
                 ∧ (for_update = true
                    → before threshold (Runtimes.update_time r) = true)).
  induction rows as [|r l IH]; [done|].
  simpl. rewrite !filter_cons.
  destruct (matches (upsert_values tool) r) eqn:Hm.
  - apply matches_row_of in Hm as Hrow.
    destruct (decide (P (deactivated now0 r))) as [[[=] _]|_].
    destruct (decide (P r)); [|exact IH].
    rewrite filter_cons. destruct (decide (¬ row_of tool r)); [done|exact IH].
  - apply matches_not_row_of in Hm as Hrow.
    destruct (decide (P r)); [|exact IH].
    rewrite filter_cons. destruct (decide (¬ row_of tool r)); [|done].
    by rewrite IH.
Qed.

(** The row written for a tool, read back by [tool_factory]. *)
Lemma written_row tool b r now :
  base_id tool = Some b → id tool = b +:+ r →
  ∃ t', tool_factory (inserted (upsert_values tool) now) = Ok t'
        ∧ key t' = key tool
        ∧ upsert_values t' = upsert_values tool
        ∧ update_time t' = Some now
        ∧ active t' = FlagInt 1.
Proof.
  intros Hb Hid. eexists. split.
  - unfold tool_factory, Tool_init. simpl.
    rewrite (set_base_id_explicit _ b) by (simpl; exact Hb). simpl.
    rewrite Hid, startswith_app. rewrite <- Hid. reflexivity.
  - unfold key, upsert_values. simpl. by rewrite Hb.
Qed.

End Listings.

(** X5. UPDATE_TOOL_SQL run for a tool through [commit_tool], on an existing
    table.  When the run count and the six runtimes of the tool can be
    bound, each being null or an integer of 64 bits, the statement succeeds
    and keeps every row at its place with its identity columns and its
    [active] flag.  The rows of that tool id and version, all of them and
    active or not, get the run count and runtimes of the tool and the time
    of the statement; every other row is untouched, and when the tool has
    no row the statement changes nothing.  When one of the integers cannot
    be bound, [sqlite3] raises [OverflowError] and nothing changes. *)
Theorem update_frame (env : Env) (tool : Tool) (w : World)
    (rows : list Runtimes.row) :
  db w = Table rows →
  (bindable UPDATE_TOOL_SQL (upsert_values tool) = true →
   ∃ w' rows',
     commit_tool env tool UPDATE_TOOL_SQL w = (w', Ok tt)
     ∧ db w' = Table rows'
     ∧ length rows' = length rows
     ∧ (∀ (i : nat) r, rows !! i = Some r →
          ∃ r', rows' !! i = Some r'
            ∧ identity r' = identity r
            ∧ Runtimes.active r' = Runtimes.active r
            ∧ (row_of tool r →
               Runtimes.update_time r' = clock env (ticks w)
               ∧ stats r'
                 = [ run_count tool; min_runtime tool; median_runtime tool;
                     mean_runtime tool; pct95_runtime tool;
                     pct99_runtime tool; max_runtime tool ])
            ∧ (¬ row_of tool r → r' = r))
     ∧ ((∀ r, r ∈ rows → ¬ row_of tool r) → rows' = rows))
  ∧ (bindable UPDATE_TOOL_SQL (upsert_values tool) = false →
     commit_tool env tool UPDATE_TOOL_SQL w = (w, Raise int_too_large)).
Proof.
  intros Hdb. split; [|by apply (commit_tool_overflow _ _ _ _ rows)].
  intros Hb. rewrite (commit_tool_table _ _ _ _ rows Hdb Hb).
  eexists _, _. split_and!; [done|done|by apply execute_length|..].
  - intros i r Hi. simpl. rewrite list_lookup_fmap, Hi. simpl.
    eexists. split; [done|].
    destruct (matches (upsert_values tool) r) eqn:Hm.
    + apply matches_row_of in Hm as Hrow. destruct Hrow as [Hid Hv].
      unfold identity. simpl. rewrite Hid. split_and!; try done.
      intros Hn. by destruct Hn.
    + apply matches_not_row_of in Hm. by split_and!.
  - intros Hnone. simpl. apply list_eq. intros i.
    rewrite list_lookup_fmap. destruct (rows !! i) as [r|] eqn:Hi; [|done].
    simpl. f_equal.
    assert (Hr : ¬ row_of tool r)
      by (apply Hnone; by eapply list_elem_of_lookup_2).
    apply matches_not_row_of in Hr. by rewrite Hr.
Qed.

Lemma update_frame_witness :
  let r := Runtimes.mk "toolB/2.0" (Some "toolB") "2.0" 5 (Some 3) (Some 1)
             (Some 2) (Some 2) (Some 4) (Some 5) (Some 6) false in
  let env := mkEnv (λ _, 9) example_datetime [] (λ _ _, 0)
               (λ _ _, Aggregates.null) in
  let tool := mkTool "toolB/2.0" "2.0" (Some "toolB") (Some 5) (Some 7)
                (Some 2) (Some 3) (Some 3) (Some 5) (Some 6) (Some 7)
                (FlagInt 1) in
  let huge := mkTool "toolB/2.0" "2.0" (Some "toolB") (Some 5) (Some 7)
                (Some (- 2 ^ 63 - 1)) (Some 3) (Some 3) (Some 5) (Some 6)
                (Some 7) (FlagInt 1) in
  let w := mkWorld (Table [r]) 0 [] [] in
  (∃ w' rows',
     commit_tool env tool UPDATE_TOOL_SQL w = (w', Ok tt)
     ∧ db w' = Table rows'
     ∧ ∃ r', rows' !! 0%nat = Some r' ∧ Runtimes.active r' = false
             ∧ Runtimes.update_time r' = 9
             ∧ Runtimes.run_count r' = Some 7)
  ∧ commit_tool env huge UPDATE_TOOL_SQL w = (w, Raise int_too_large).
Proof.
  intros r env tool huge w. split.
  - destruct (proj1 (update_frame env tool w [r] eq_refl) eq_refl)
      as (w' & rows' & Hrun & Hdb & _ & Hrows & _).
    exists w', rows'. split; [exact Hrun|]. split; [exact Hdb|].
    destruct (Hrows 0%nat r eq_refl) as (r' & Hr' & _ & Hact & Hupd & _).
    destruct (Hupd (conj eq_refl eq_refl)) as [Hut Hstats].
    exists r'. split; [exact Hr'|]. split; [exact Hact|].
    split; [exact Hut|]. by injection Hstats.
  - exact (proj2 (update_frame env huge w [r] eq_refl) eq_refl).
Defined.

(** X6. After DEACTIVATE_TOOL_SQL is run for a tool, no row of its id and
    version is active, however many there were, and both queries of
    [get_db_tools] select what they selected before, less the rows of that
    tool. *)
Theorem deactivated_tool_unlisted (env : Env) (tool : Tool) (w : World)
    (rows : list Runtimes.row) :
  db w = Table rows →
  ∃ w' rows',
    commit_tool env tool DEACTIVATE_TOOL_SQL w = (w', Ok tt)
    ∧ db w' = Table rows'
    ∧ (∀ r, r ∈ rows' → row_of tool r → Runtimes.active r = false)
    ∧ ∀ for_update threshold,
        select_active for_update threshold rows'
        = filter (λ r, ¬ row_of tool r)
            (select_active for_update threshold rows).
Proof.
  intros Hdb.
  rewrite (commit_tool_table _ _ _ _ rows Hdb (bindable_deactivate _)).
  eexists _, _. split_and!; [done|done|..].
  - intros r Hr Hrow. simpl in Hr.
    apply list_elem_of_fmap in Hr as (r0 & -> & _).
    destruct (matches (upsert_values tool) r0) eqn:Hm; [done|].
    apply matches_not_row_of in Hm. by destruct Hm.
  - intros for_update threshold. apply select_after_deactivate.
Qed.

Lemma deactivated_tool_unlisted_witness :
  let r := Runtimes.mk "toolB/2.0" (Some "toolB") "2.0" 5 (Some 3) (Some 1)
             (Some 2) (Some 2) (Some 4) (Some 5) (Some 6) true in
  ∃ w' rows',
    commit_tool
      (mkEnv (λ _, 9) example_datetime [] (λ _ _, 0) (λ _ _, Aggregates.null))
      (mkTool "toolB/2.0" "2.0" (Some "toolB") (Some 5) (Some 3) (Some 1)
         (Some 2) (Some 2) (Some 4) (Some 5) (Some 6) (FlagInt 1))
      DEACTIVATE_TOOL_SQL (mkWorld (Table [r; r]) 0 [] []) = (w', Ok tt)
    ∧ db w' = Table rows'
    ∧ select_active false None rows' = [].
Proof.
  intros r.
  destruct (deactivated_tool_unlisted
              (mkEnv (λ _, 9) example_datetime [] (λ _ _, 0)
                 (λ _ _, Aggregates.null))
              (mkTool "toolB/2.0" "2.0" (Some "toolB") (Some 5) (Some 3)
                 (Some 1) (Some 2) (Some 2) (Some 4) (Some 5) (Some 6)
                 (FlagInt 1))
              (mkWorld (Table [r; r]) 0 [] []) [r; r] eq_refl)
    as (w' & rows' & Hrun & Hdb & _ & Hsel).
  exists w', rows'. split; [exact Hrun|]. split; [exact Hdb|].
  rewrite Hsel. reflexivity.
Defined.

(** X7. Insert, then list.  When the listing of the active tools succeeds on
    a table, it succeeds again after a tool whose base id is a prefix of its
    id, and whose run count and runtimes can be bound, has been inserted;
    its keys are then the former keys and the key of that tool, and under
    that key it holds the tool just written (a row already listed under the
    same key is shadowed by the new one). *)
Theorem inserted_tool_listed (env : Env) (app : App) (tool : Tool)
    (w w1 : World) (rows : list Runtimes.row) (listed : Dict.t)
    (b r : string) :
  db w = Table rows →
  base_id tool = Some b → id tool = b +:+ r →
  bindable INSERT_TOOL_SQL (upsert_values tool) = true →
  get_db_tools env app false w = (w1, Ok listed) →
  ∃ w' listed' t',
    commit_tool env tool INSERT_TOOL_SQL w = (w', Ok tt)
    ∧ get_db_tools env app false w' = (w', Ok listed')
    ∧ Dict.keys listed' = {[key tool]} ∪ Dict.keys listed
    ∧ Dict.get listed' (key tool) = Ok t'
    ∧ upsert_values t' = upsert_values tool
    ∧ update_time t' = Some (clock env (ticks w))
    ∧ active t' = FlagInt 1.
Proof.
  intros Hdb Hb Hid Hbind Hlist.
  rewrite (get_db_tools_table env app false w rows Hdb) in Hlist.
  injection Hlist as _ Hlist.
  destruct (map_result tool_factory _) as [tools|] eqn:Htools; [|done].
  injection Hlist as <-.
  rewrite (commit_tool_table _ _ _ _ rows Hdb Hbind).
  destruct (written_row tool b r (clock env (ticks w)) Hb Hid)
    as (t' & Ht' & Hk & Hp & Hut & Hact).
  eexists _, (Dict.of_tools (tools ++ [t'])), t'. split; [done|].
  split_and!; try done.
  - erewrite get_db_tools_table by done. simpl. f_equal.
    rewrite select_active_false in *. rewrite filter_app, filter_cons.
    rewrite decide_True by done. rewrite filter_nil, map_result_snoc.
    rewrite Htools. simpl. by rewrite Ht'.
  - rewrite of_tools_snoc, Dict_keys_set. by rewrite Hk.
  - rewrite of_tools_snoc, Hk. apply Dict_get_set.
Qed.

Lemma inserted_tool_listed_witness :
  let rB := Runtimes.mk "toolB/2.0" (Some "toolB") "2.0" 5 (Some 3) (Some 1)
              (Some 2) (Some 2) (Some 4) (Some 5) (Some 6) true in
  let tB := mkTool "toolB/2.0" "2.0" (Some "toolB") (Some 5) (Some 3) (Some 1)
              (Some 2) (Some 2) (Some 4) (Some 5) (Some 6) (FlagInt 1) in
  let tool := mkTool "toolA/1.0" "1.0" (Some "toolA") None (Some 4) (Some 1)
                (Some 12) (Some 13) (Some 19) (Some 20) (Some 21)
                (FlagBool true) in
  let env := mkEnv (λ _, 9) example_datetime [] (λ _ _, 0)
               (λ _ _, Aggregates.null) in
  let app := mkApp "runtimes.sqlite" None "https://usegalaxy.org"
               default_older_than in
  ∃ w' listed',
    commit_tool env tool INSERT_TOOL_SQL (mkWorld (Table [rB]) 0 [] [])
    = (w', Ok tt)
    ∧ get_db_tools env app false w' = (w', Ok listed')
    ∧ Dict.keys listed' = {["toolA/1.0"]} ∪ Dict.keys [("toolB/2.0", tB)].
Proof.
  intros rB tB tool env app.
  destruct (inserted_tool_listed env app tool (mkWorld (Table [rB]) 0 [] [])
              (mkWorld (Table [rB]) 0 [] []) [rB] [("toolB/2.0", tB)]
              "toolA" "/1.0" eq_refl eq_refl eq_refl eq_refl eq_refl)
    as (w' & listed' & t' & Hrun & Hlist & Hkeys & _).
  exists w', listed'. split; [exact Hrun|]. split; [exact Hlist|exact Hkeys].
Defined.

(** X8. The staleness listing asks for less than the active listing: on a
    table where [get_db_tools()] succeeds, [get_db_tools(for_update=True)]
    succeeds too, whatever the time and the window, its keys are among the
    keys of the active listing, and neither changes the table. *)
Theorem stale_subset_active (env : Env) (app : App) (w w1 : World)
    (rows : list Runtimes.row) (listed : Dict.t) :
  db w = Table rows →
  get_db_tools env app false w = (w1, Ok listed) →
  w1 = w
  ∧ ∃ w2 stale,
      get_db_tools env app true w = (w2, Ok stale)
      ∧ db w2 = Table rows
      ∧ Dict.keys stale ⊆ Dict.keys listed.
Proof.
  intros Hdb Hlist.
  rewrite (get_db_tools_table env app false w rows Hdb) in Hlist.
  injection Hlist as Hw Hlist.
  destruct (map_result tool_factory _) as [tools|] eqn:Htools; [|done].
  injection Hlist as <-. split.
  - rewrite <- Hw. by destruct w.
  - rewrite (get_db_tools_table env app true w rows Hdb).
    rewrite select_active_false in Htools. unfold select_active.
    destruct (map_result_weaken tool_factory
                (λ r, Runtimes.active r = true)
                (λ r, Runtimes.active r = true
                      ∧ (true = true
                         → before (threshold env app (clock env (ticks w)))
                             (Runtimes.update_time r) = true))
                rows tools) as (stale & Hstale & Hsub);
      [by intros x [? _] | exact Htools |].
    eexists _, _. rewrite Hstale. simpl. split; [done|]. split; [done|].
    rewrite !Dict_keys_of_tools. intros k.
    rewrite !elem_of_list_to_set, !list_elem_of_fmap.
    intros (t & -> & Ht). exists t. split; [done|]. by apply Hsub.
Qed.

Lemma stale_subset_active_witness :
  let rA := Runtimes.mk "toolA/1.0" (Some "toolA") "1.0" 0 (Some 3) (Some 1)
              (Some 2) (Some 2) (Some 4) (Some 5) (Some 6) true in
  let rB := Runtimes.mk "toolB/2.0" (Some "toolB") "2.0" 999999999 (Some 3)
              (Some 1) (Some 2) (Some 2) (Some 4) (Some 5) (Some 6) true in
  let tA := mkTool "toolA/1.0" "1.0" (Some "toolA") (Some 0) (Some 3) (Some 1)
              (Some 2) (Some 2) (Some 4) (Some 5) (Some 6) (FlagInt 1) in
  let tB := mkTool "toolB/2.0" "2.0" (Some "toolB") (Some 999999999) (Some 3)
              (Some 1) (Some 2) (Some 2) (Some 4) (Some 5) (Some 6)
              (FlagInt 1) in
  let env := mkEnv (λ _, 1000000000) example_datetime [] (λ _ _, 0)
               (λ _ _, Aggregates.null) in
  let app := mkApp "runtimes.sqlite" None "https://usegalaxy.org" "7 days" in
  let w := mkWorld (Table [rA; rB]) 0 [] [] in
  ∃ w2,
    get_db_tools env app true w = (w2, Ok [("toolA/1.0", tA)])
    ∧ Dict.keys [("toolA/1.0", tA)]
      ⊆ Dict.keys [("toolA/1.0", tA); ("toolB/2.0", tB)].
Proof.
  intros rA rB tA tB env app w.
  destruct (stale_subset_active env app w w [rA; rB]
              [("toolA/1.0", tA); ("toolB/2.0", tB)] eq_refl eq_refl)
    as (_ & w2 & stale & Hq & _ & Hsub).
  assert (Hst : stale = [("toolA/1.0", tA)]).
  { vm_compute in Hq. by injection Hq as _ <-. }
  exists w2. rewrite <- Hst. split; [exact Hq | exact Hsub].
Defined.

(** ** The catalog and its dictionary *)

Section Catalog.

Variable env : Env.

(** The first failure decides: when [f] fails somewhere on a list,
    [map_result] raises what [f] raises on the first element it fails on. *)
Lemma map_result_raise {A B} (f : A → result B) (l : list A) x e0 :
  x ∈ l → f x = Raise e0 →
  ∃ pre y post e,
    l = (pre ++ y :: post)%list
    ∧ (∀ z, z ∈ pre → is_ok (f z) = true)
    ∧ f y = Raise e ∧ map_result f l = Raise e.
Proof.
  induction l as [|a l IH]; intros Hx Hfx; [by apply elem_of_nil in Hx|].
  simpl. destruct (f a) as [b|e] eqn:Ea; simpl.
  - apply elem_of_cons in Hx as [->|Hx]; [congruence|].
    destruct (IH Hx Hfx) as (pre & y & post & e & -> & Hpre & Hfy & ->).
    exists (a :: pre), y, post, e. split_and!; try done.
    intros z Hz. apply elem_of_cons in Hz as [->|Hz]; [by rewrite Ea|].
    by apply Hpre.
  - exists [], a, l, e. split_and!; try done.
    intros z Hz. by apply elem_of_nil in Hz.
Qed.

(** A construction fails by one of the assertions only. *)
Lemma Tool_init_raise i vo bo ut rc mn md me p95 p99 mx act e :
  Tool_init i vo bo ut rc mn md me p95 p99 mx act = Raise e →
  ∃ msg, e = AssertionError msg.
Proof.
  unfold Tool_init. destruct vo as [v|]; [|intros [= <-]; by eexists].
  unfold set_base_id. simpl. destruct bo as [b|].
  - destruct (PyStr.startswith i b); [done|]. intros [= <-]. by eexists.
  - destruct (PyStr.contains PyStr.sep i) eqn:Hc; [|done].
    unfold PyStr.rsplit1.
    destruct (PyStr.rsplit_last PyStr.sep i) as [[h idv]|] eqn:E; simpl.
    + destruct (String.eqb v idv); [done|]. intros [= <-]. by eexists.
    + apply rsplit_last_none in E. congruence.
Qed.

Lemma get_server_tools_eq (w : World) :
  get_server_tools env w
  = (w, bind_result
          (map_result (λ e, Tool_new e.1 e.2 None) (catalog env))
          (λ tools, Ok (Dict.of_tools tools))).
Proof.
  unfold get_server_tools, mbind, M_bind, bind, lift.
  by destruct (map_result _ _).
Qed.

Lemma Dict_set_fst (d : Dict.t) k v :
  map fst (Dict.set d k v)
  = if decide (k ∈ map fst d) then map fst d else (map fst d ++ [k])%list.
Proof.
  induction d as [|[k' v'] d IH].
  - destruct (decide (k ∈ map fst [])) as [H|H]; [|done].
    by apply elem_of_nil in H.
  - cbn [Dict.set]. destruct (String.eqb k' k) eqn:E.
    + apply String.eqb_eq in E as ->.
      destruct (decide (k ∈ map fst ((k, v') :: d))) as [H|H]; [done|].
      destruct H. apply list_elem_of_here.
    + apply String.eqb_neq in E. cbn [map fst]. rewrite IH.
      destruct (decide (k ∈ map fst d)) as [Hin|Hin];
        destruct (decide (k ∈ k' :: map fst d)) as [H|H]; try done.
      * destruct H. by apply list_elem_of_further.
      * apply elem_of_cons in H as [->|H]; [done|by destruct Hin].
Qed.

Lemma Dict_set_elem (d : Dict.t) k v k' v' :
  (k', v') ∈ Dict.set d k v → (k', v') = (k, v) ∨ (k', v') ∈ d.
Proof.
  induction d as [|[k0 v0] d IH]; simpl.
  - intros H. apply list_elem_of_singleton in H. by left.
  - destruct (String.eqb k0 k).
    + intros H. apply elem_of_cons in H as [H|H]; [by left|].
      right. by apply list_elem_of_further.
    + intros H. apply elem_of_cons in H as [H|H].
      * right. rewrite H. apply list_elem_of_here.
      * destruct (IH H) as [?|?]; [by left|].
        right. by apply list_elem_of_further.
Qed.

(** The dictionary built from a list of tools: no key twice, every entry
    filed under the key of its tool. *)
Lemma of_tools_inv (tools : list Tool) :
  NoDup (map fst (Dict.of_tools tools))
  ∧ ∀ k t, (k, t) ∈ Dict.of_tools tools → key t = k ∧ t ∈ tools.
Proof.
  induction tools as [|t tools IH] using rev_ind.
  - split; [constructor|]. intros k t H. by apply elem_of_nil in H.
  - rewrite of_tools_snoc. destruct IH as [Hnd Hin]. split.
    + rewrite Dict_set_fst. case_decide; [done|].
      apply NoDup_app. split_and!; [done| |apply NoDup_singleton].
      intros x Hx Hx'. apply list_elem_of_singleton in Hx' as ->. done.
    + intros k t' H. apply Dict_set_elem in H as [[= -> ->]|H].
      * split; [done|]. apply elem_of_app. right. apply list_elem_of_here.
      * destruct (Hin _ _ H). split; [done|]. apply elem_of_app. by left.
Qed.

Lemma Dict_get_elem (d : Dict.t) k :
  k ∈ map fst d → ∃ t, Dict.get d k = Ok t ∧ (k, t) ∈ d.
Proof.
  induction d as [|[k' v'] d IH]; simpl; [by intros H%elem_of_nil|].
  intros H. destruct (String.eqb k' k) eqn:E.
  - apply String.eqb_eq in E as ->. exists v'. split; [done|].
    apply list_elem_of_here.
  - apply String.eqb_neq in E.
    apply elem_of_cons in H as [->|H]; [done|].
    destruct (IH H) as (t & Ht & Hin). exists t. split; [done|].
    by apply list_elem_of_further.
Qed.

Lemma Dict_get_missing (d : Dict.t) k :
  k ∉ map fst d → Dict.get d k = Raise (KeyError k).
Proof.
  induction d as [|[k' v'] d IH]; simpl; [done|].
  intros H. destruct (String.eqb k' k) eqn:E.
  - apply String.eqb_eq in E as ->. destruct H. apply list_elem_of_here.
  - apply IH. intros Hk. apply H. by apply list_elem_of_further.
Qed.

End Catalog.

(** X9. One malformed catalog entry stops the pass before it touches the
    table.  When the construction of a [Tool] fails for some entry (a null
    version, or an id whose part after the last separator is not the
    version), the catalog has a first such entry, every entry before it
    giving a tool, and [handle_tool_changes] raises the assertion error of
    that first entry and leaves the world as it was, whatever the table
    holds. *)
Theorem malformed_catalog_aborts (env : Env) (app : App) (w : World)
    (i : string) (vo : option string) (e0 : exn) :
  (i, vo) ∈ catalog env →
  Tool_new i vo None = Raise e0 →
  ∃ pre i' vo' post msg,
    catalog env = (pre ++ (i', vo') :: post)%list
    ∧ (∀ x, x ∈ pre → is_ok (Tool_new x.1 x.2 None) = true)
    ∧ Tool_new i' vo' None = Raise (AssertionError msg)
    ∧ handle_tool_changes env app w = (w, Raise (AssertionError msg)).
Proof.
  intros Hin Hbad.
  destruct (map_result_raise (λ e, Tool_new e.1 e.2 None) (catalog env)
              (i, vo) e0 Hin Hbad)
    as (pre & [i' vo'] & post & e & Hcat & Hpre & Hfy & Hall).
  simpl in Hfy. destruct (Tool_init_raise _ _ _ _ _ _ _ _ _ _ _ _ _ Hfy)
    as [msg ->].
  exists pre, i', vo', post, msg. split_and!; [done|done|done|].
  unfold handle_tool_changes. erewrite bind_raise; [done|].
  by rewrite get_server_tools_eq, Hall.
Qed.

Lemma malformed_catalog_aborts_witness :
  let env := mkEnv (λ _, 9) example_datetime
               [("toolA/1.0", Some "1.0"); ("toolB/2.0", Some "3.0");
                ("toolC/1.0", None)]
               (λ _ _, 0) (λ _ _, Aggregates.null) in
  let app := mkApp "runtimes.sqlite" None "https://usegalaxy.org"
               default_older_than in
  ∃ pre i' vo' post msg,
    catalog env = (pre ++ (i', vo') :: post)%list
    ∧ (∀ x, x ∈ pre → is_ok (Tool_new x.1 x.2 None) = true)
    ∧ Tool_new i' vo' None = Raise (AssertionError msg)
    ∧ handle_tool_changes env app (mkWorld (Table []) 0 [] [])
      = (mkWorld (Table []) 0 [] [], Raise (AssertionError msg)).
Proof.
  intros env app.
  apply (malformed_catalog_aborts env app (mkWorld (Table []) 0 [] [])
           "toolC/1.0" None (AssertionError None)).
  - apply list_elem_of_further, list_elem_of_further, list_elem_of_here.
  - reflexivity.
Defined.

(** X10. The dictionary of [get_server_tools].  When every catalog entry
    gives a tool, the call changes nothing in the world; its dictionary has
    each key once, and its keys are the keys of the tools of the catalog.
    Looking up one of its keys gives a tool with that key, so the insertion
    loop never meets a [KeyError]; looking up any other key raises it. *)
Theorem server_tools_dict (env : Env) (w w' : World) (server_tools : Dict.t) :
  get_server_tools env w = (w', Ok server_tools) →
  w' = w
  ∧ NoDup (map fst server_tools)
  ∧ (∀ k, k ∈ Dict.keys server_tools ↔
       ∃ i vo t, (i, vo) ∈ catalog env ∧ Tool_new i vo None = Ok t
                 ∧ key t = k)
  ∧ (∀ k, k ∈ Dict.keys server_tools →
       ∃ t, Dict.get server_tools k = Ok t ∧ key t = k)
  ∧ (∀ k, k ∉ Dict.keys server_tools →
       Dict.get server_tools k = Raise (KeyError k)).
Proof.
  rewrite get_server_tools_eq. intros [= <- H].
  destruct (map_result _ (catalog env)) as [tools|] eqn:Htools; [|done].
  injection H as <-. destruct (of_tools_inv tools) as [Hnd Hin].
  split_and!; [done|done|..].
  - intros k. rewrite Dict_keys_of_tools, elem_of_list_to_set,
      list_elem_of_fmap. split.
    + intros (t & -> & Ht).
      destruct (map_result_elem_inv _ _ _ _ Htools Ht) as ([i vo] & Hx & Hfx).
      by exists i, vo, t.
    + intros (i & vo & t & Hx & Hfx & <-).
      destruct (map_result_elem _ _ _ (i, vo) Htools Hx) as (t' & Hfx' & Ht').
      simpl in Hfx'. exists t'. split; [congruence|done].
  - intros k Hk. unfold Dict.keys in Hk. apply elem_of_list_to_set in Hk.
    destruct (Dict_get_elem _ _ Hk) as (t & Hget & Hel).
    exists t. split; [done|]. by apply Hin.
  - intros k Hk. apply Dict_get_missing. intros Hk'. apply Hk.
    unfold Dict.keys. by apply elem_of_list_to_set.
Qed.

Lemma server_tools_dict_witness :
  let env := mkEnv (λ _, 9) example_datetime
               [("toolA/1.0", Some "1.0"); ("toolA", Some "1.0")]
               (λ _ _, 0) (λ _ _, Aggregates.null) in
  ∃ server_tools,
    get_server_tools env (mkWorld (Table []) 0 [] [])
    = (mkWorld (Table []) 0 [] [], Ok server_tools)
    ∧ NoDup (map fst server_tools).
Proof.
  intros env. eexists. split; [reflexivity|].
  exact (proj1 (proj2 (server_tools_dict env (mkWorld (Table []) 0 [] [])
                         _ _ eq_refl))).
Defined.

(** X11. [main] without a tool id.  When [--tool-id] is absent or empty,
    [main] is the reconciliation pass, run on an empty table it creates
    first when the database file is missing, and on the file as it is
    otherwise. *)
Theorem main_runs_pass (env : Env) (args : Args) (w : World) :
  tool_id args = None ∨ tool_id args = Some EmptyString →
  main env args w
  = handle_tool_changes env
      (mkApp (sqlite_db_file args) (pgconn args) (arg_galaxy_url args)
         (arg_older_than args))
      match db w with
      | Absent => mkWorld (Table []) (ticks w) (stdout w) (committed w)
      | _ => w
      end.
Proof.
  intros Hid. unfold main.
  assert (Ht : truthy (tool_id args) = None) by (by destruct Hid as [-> | ->]).
  rewrite Ht. erewrite bind_ok by reflexivity.
  destruct (db w) eqn:Hdb.
  - erewrite bind_ok; [done|]. unfold make_db. by rewrite Hdb.
  - by erewrite bind_ok.
  - by erewrite bind_ok.
Qed.

Lemma main_runs_pass_witness :
  let env := mkEnv (λ _, 9) example_datetime [] (λ _ _, 0)
               (λ _ _, Aggregates.null) in
  main env
    (mkArgs None default_older_than "https://usegalaxy.org"
       (Some EmptyString) "runtimes.sqlite")
    (mkWorld Absent 0 [] [])
  = handle_tool_changes env
      (mkApp "runtimes.sqlite" None "https://usegalaxy.org"
         default_older_than)
      (mkWorld (Table []) 0 [] []).
Proof.
  intros env.
  exact (main_runs_pass env
           (mkArgs None default_older_than "https://usegalaxy.org"
              (Some EmptyString) "runtimes.sqlite")
           (mkWorld Absent 0 [] [])
           (or_intror eq_refl)).
Defined.

(** X12. A pass needs the table.  On a database file without the table
    [runtimes] (which [main] does not create when the file exists), a pass
    whose catalog is well formed raises the error of SQLite at its first
    query, with nothing printed and nothing committed. *)
Theorem pass_without_table (env : Env) (app : App) (w w1 : World)
    (server_tools : Dict.t) :
  db w = NoTable →
  get_server_tools env w = (w1, Ok server_tools) →
  handle_tool_changes env app w
  = (w, Raise (OperationalError "no such table: runtimes")).
Proof.
  intros Hdb Hs. pose proof Hs as Hs'.
  rewrite get_server_tools_eq in Hs'. injection Hs' as <- _.
  unfold handle_tool_changes. erewrite bind_ok by exact Hs.
  erewrite bind_raise; [done|].
  unfold get_db_tools. erewrite bind_raise; [done|].
  unfold table_rows. rewrite Hdb. destruct w. simpl in *. by subst.
Qed.

Lemma pass_without_table_witness :
  let env := mkEnv (λ _, 9) example_datetime [("toolA/1.0", Some "1.0")]
               (λ _ _, 0) (λ _ _, Aggregates.null) in
  let app := mkApp "runtimes.sqlite" None "https://usegalaxy.org"
               default_older_than in
  handle_tool_changes env app (mkWorld NoTable 0 [] [])
  = (mkWorld NoTable 0 [] [],
     Raise (OperationalError "no such table: runtimes")).
Proof.
  intros env app.
  exact (pass_without_table env app (mkWorld NoTable 0 [] []) _ _
           eq_refl eq_refl).
Defined.

(** ** The loops of a pass *)

Section Loops.

Variable env : Env.

(** What [update_stats] and the run count leave of a tool. *)
Lemma computed_fields tool t' :
  computed env tool = Ok t' →
  id t' = id tool ∧ version t' = version tool ∧ base_id t' = base_id tool
  ∧ run_count t' = Some (job_count env (id tool) (version tool))
  ∧ update_time t' = update_time tool ∧ active t' = active tool.
Proof.
  unfold computed. destruct (job_summary _ _ _) as [s|]; simpl; [|done].
  unfold update_stats.
  destruct (py_int (Summary.min s)); simpl; [|done].
  destruct (py_int (Summary.median s)); simpl; [|done].
  destruct (py_int (Summary.mean s)); simpl; [|done].
  destruct (py_int (Summary.perc_95 s)); simpl; [|done].
  destruct (py_int (Summary.perc_99 s)); simpl; [|done].
  destruct (py_int (Summary.max s)); simpl; [|done].
  by intros [= <-].
Qed.

Lemma for_each_cons_ok {A} (x : A) l (body : A → M unit) (w w1 : World) :
  body x w = (w1, Ok tt) → for_each (x :: l) body w = for_each l body w1.
Proof. intros H. simpl. unfold bind. by rewrite H. Qed.

Lemma for_each_cons_raise {A} (x : A) l (body : A → M unit) (w w1 : World) e :
  body x w = (w1, Raise e) → for_each (x :: l) body w = (w1, Raise e).
Proof. intros H. simpl. unfold bind. by rewrite H. Qed.

(** The insertion loop over a list of keys whose tools can all be stored:
    one row per key, in order, after the rows already there. *)
Lemma insert_each (st : Dict.t) (l : list string) (w : World) rows :
  db w = Table rows →
  (∀ k, k ∈ l → ∃ t, Dict.get st k = Ok t
                     ∧ storable env INSERT_TOOL_SQL t) →
  ∃ w' new,
    for_each l (λ tool_key, t ← lift (Dict.get st tool_key);
                            upsert_tool env t INSERT_TOOL_SQL) w
    = (w', Ok tt)
    ∧ db w' = Table (rows ++ new)
    ∧ ticks w' = (ticks w + length l)%nat
    ∧ length new = length l
    ∧ ∀ (j : nat) k, l !! j = Some k →
        ∃ t r, Dict.get st k = Ok t ∧ new !! j = Some r
               ∧ identity r = (id t, base_id t, version t)
               ∧ Runtimes.run_count r
                 = Some (job_count env (id t) (version t))
               ∧ Runtimes.update_time r = clock env (ticks w + j)%nat
               ∧ Runtimes.active r = true.
Proof.
  revert w rows. induction l as [|k l IH]; intros w rows Hdb Hall.
  - exists w, []. simpl. rewrite app_nil_r, Nat.add_0_r.
    split_and!; try done.
  - destruct (Hall k) as (t & Hget & t' & Hc & Hbind);
      [apply list_elem_of_here|].
    destruct (computed_fields t t' Hc) as (Hi & Hv & Hb & Hrc & _).
    set (r0 := inserted (upsert_values t') (clock env (ticks w))).
    set (w1 := mkWorld (Table (rows ++ [r0])) (S (ticks w))
                 (stdout w ++ [Tool_str t'])
                 (committed w ++ [(INSERT_TOOL_SQL, upsert_values t')])).
    destruct (IH w1 (rows ++ [r0])%list eq_refl) as (w' & new & Hrun & Hdb' & Ht
                                                & Hlen & Hrows).
    { intros k' Hk'. apply Hall. by apply list_elem_of_further. }
    exists w', (r0 :: new). split_and!.
    + erewrite for_each_cons_ok; [exact Hrun|].
      erewrite bind_ok by (unfold lift; by rewrite Hget).
      by rewrite (upsert_tool_computed env t t' INSERT_TOOL_SQL w rows Hdb Hc
                    Hbind).
    + rewrite Hdb'. by rewrite <- app_assoc.
    + rewrite Ht. simpl. lia.
    + simpl. by rewrite Hlen.
    + intros [|j] k' Hj; simpl in Hj.
      * injection Hj as <-. exists t, r0. split_and!; try done.
        -- unfold identity, r0. simpl. by rewrite Hi, Hv, Hb.
        -- unfold r0. simpl. by rewrite Nat.add_0_r.
      * destruct (Hrows j k' Hj) as (t0 & r & ? & ? & ? & ? & Hut & ?).
        exists t0, r. split_and!; try done.
        rewrite Hut. simpl. f_equal. lia.
Qed.

End Loops.

Section Passes.

Variable env : Env.
Variable app : App.

Lemma filter_none {A} (P : A → Prop) `{∀ x, Decision (P x)} (l : list A) :
  (∀ x, x ∈ l → ¬ P x) → filter P l = [].
Proof.
  induction l as [|a l IH]; intros Hl; [done|].
  rewrite filter_cons, decide_False by (apply Hl, list_elem_of_here).
  apply IH. intros x Hx. by apply Hl, list_elem_of_further.
Qed.

Lemma insert_loop_empty (st : Dict.t) (S D : gset string) (w : World) :
  to_insert S D = ∅ → insert_loop env st S D w = (w, Ok tt).
Proof. intros H. unfold insert_loop. by rewrite H, elements_empty. Qed.

(** The active listing on a table: the world is left as it is. *)
Lemma get_db_tools_listing (w w1 : World) rows listed :
  db w = Table rows →
  get_db_tools env app false w = (w1, Ok listed) →
  w1 = w
  ∧ ∃ tools,
      map_result tool_factory (filter (λ r, Runtimes.active r = true) rows)
      = Ok tools
      ∧ listed = Dict.of_tools tools.
Proof.
  intros Hdb Hlist.
  rewrite (get_db_tools_table env app false w rows Hdb) in Hlist.
  rewrite select_active_false in Hlist. injection Hlist as Hw Hlist.
  destruct (map_result tool_factory _) as [tools|]; [|done].
  injection Hlist as <-. split; [|by exists tools].
  rewrite <- Hw. by destruct w.
Qed.

End Passes.

(** X13. The insertion loop only appends.  When every key to insert has a
    tool whose statistics can be computed and bound (a summary whose six
    columns convert, integers of 64 bits), the loop succeeds, leaves the
    rows that were there as they were and adds after them one active row
    per key, with the id, base id and version of the tool of that key, its
    run count, and the time of its own statement. *)
Theorem insert_loop_appends (env : Env) (server_tools : Dict.t)
    (S D : gset string) (w : World) (rows : list Runtimes.row) :
  db w = Table rows →
  (∀ k, k ∈ to_insert S D →
     ∃ t, Dict.get server_tools k = Ok t
          ∧ storable env INSERT_TOOL_SQL t) →
  ∃ w' new,
    insert_loop env server_tools S D w = (w', Ok tt)
    ∧ db w' = Table (rows ++ new)
    ∧ length new = size (to_insert S D)
    ∧ ticks w' = (ticks w + size (to_insert S D))%nat
    ∧ (∀ k, k ∈ to_insert S D →
         ∃ t r, Dict.get server_tools k = Ok t ∧ r ∈ new
                ∧ identity r = (id t, base_id t, version t)
                ∧ Runtimes.run_count r
                  = Some (job_count env (id t) (version t))
                ∧ Runtimes.active r = true)
    ∧ (∀ r, r ∈ new →
         ∃ k t (j : nat),
           k ∈ to_insert S D ∧ Dict.get server_tools k = Ok t
           ∧ identity r = (id t, base_id t, version t)
           ∧ (j < size (to_insert S D))%nat
           ∧ Runtimes.update_time r = clock env (ticks w + j)%nat).
Proof.
  intros Hdb Hall.
  destruct (insert_each env server_tools (elements (to_insert S D)) w rows
              Hdb) as (w' & new & Hrun & Hdb' & Ht & Hlen & Hrows).
  { intros k Hk. apply Hall. by apply elem_of_elements. }
  exists w', new. split_and!; try done.
  - intros k Hk. apply elem_of_elements, list_elem_of_lookup in Hk as [j Hj].
    destruct (Hrows j k Hj) as (t & r & ? & Hr & ? & ? & ? & ?).
    exists t, r. split_and!; try done. by eapply list_elem_of_lookup_2.
  - intros r Hr. apply list_elem_of_lookup in Hr as [j Hj].
    assert (Hjl : (j < length (elements (to_insert S D)))%nat).
    { rewrite <- Hlen. by eapply lookup_lt_Some. }
    destruct (lookup_lt_is_Some_2 _ _ Hjl) as [k Hk].
    destruct (Hrows j k Hk) as (t & r' & ? & Hr' & ? & ? & ? & ?).
    assert (r' = r) as -> by congruence.
    exists k, t, j. split_and!; try done.
    apply elem_of_elements. by eapply list_elem_of_lookup_2.
Qed.

Lemma insert_loop_appends_witness :
  let a := Aggregates.mk (Some (Finite (1 # 1))) (Some (Finite (2 # 1)))
             (Some (Finite (129 # 10))) (Some (Finite (129 # 10)))
             (Some (Finite (15 # 1))) (Some (Finite (199 # 10)))
             (Some (Finite (201 # 10))) (Some (Finite (21 # 1)))
             (Some (Finite (54 # 1))) (Some (Finite (7 # 1))) in
  let env := mkEnv (λ _, 9) example_datetime [] (λ _ _, 4) (λ _ _, a) in
  let tA := mkTool "toolA/1.0" "1.0" (Some "toolA") None (Some (-1)) None None
              None None None None (FlagBool true) in
  let tC := mkTool "toolC/3.0" "3.0" (Some "toolC") None (Some (-1)) None None
              None None None None (FlagBool true) in
  let rB := Runtimes.mk "toolB/2.0" (Some "toolB") "2.0" 5 (Some 3) (Some 1)
              (Some 2) (Some 2) (Some 4) (Some 5) (Some 6) true in
  ∃ w' new,
    insert_loop env [("toolA/1.0", tA); ("toolC/3.0", tC)]
      {["toolA/1.0"; "toolC/3.0"]} {["toolB/2.0"]}
      (mkWorld (Table [rB]) 0 [] []) = (w', Ok tt)
    ∧ db w' = Table (rB :: new)
    ∧ length new = 2%nat.
Proof.
  intros a env tA tC rB.
  destruct (insert_loop_appends env [("toolA/1.0", tA); ("toolC/3.0", tC)]
              {["toolA/1.0"; "toolC/3.0"]} {["toolB/2.0"]}
              (mkWorld (Table [rB]) 0 [] []) [rB] eq_refl)
    as (w' & new & Hrun & Hdb & Hlen & _).
  - intros k Hk. unfold to_insert in Hk.
    apply elem_of_difference in Hk as [Hk _].
    apply elem_of_union in Hk as [Hk|Hk]; apply elem_of_singleton in Hk as ->.
    + exists tA. split; [reflexivity|].
      exists (mkTool "toolA/1.0" "1.0" (Some "toolA") None (Some 4) (Some 1)
                (Some 13) (Some 12) (Some 20) (Some 20) (Some 21)
                (FlagBool true)).
      split; vm_compute; reflexivity.
    + exists tC. split; [reflexivity|].
      exists (mkTool "toolC/3.0" "3.0" (Some "toolC") None (Some 4) (Some 1)
                (Some 13) (Some 12) (Some 20) (Some 20) (Some 21)
                (FlagBool true)).
      split; vm_compute; reflexivity.
  - exists w', new. split; [exact Hrun|]. split; [exact Hdb|].
    rewrite Hlen. vm_compute. reflexivity.
Defined.

(** X14. A pass with nothing to do changes nothing.  When the catalog and
    the active listing have the same keys and no active row is older than
    the staleness window, [handle_tool_changes] succeeds with the table,
    the output and the committed statements as they were; it reads the
    clock once, for the staleness query. *)
Theorem pass_noop (env : Env) (app : App) (w w1 w2 : World)
    (rows : list Runtimes.row) (server_tools db_tools : Dict.t) :
  db w = Table rows →
  get_server_tools env w = (w1, Ok server_tools) →
  get_db_tools env app false w1 = (w2, Ok db_tools) →
  Dict.keys server_tools = Dict.keys db_tools →
  select_active true (threshold env app (clock env (ticks w))) rows = [] →
  handle_tool_changes env app w
  = (mkWorld (Table rows) (S (ticks w)) (stdout w) (committed w), Ok tt).
Proof.
  intros Hdb Hs Hd Hkeys Hfresh.
  assert (w1 = w) as ->.
  { rewrite get_server_tools_eq in Hs. by injection Hs as <- _. }
  destruct (get_db_tools_listing env app w w2 rows db_tools Hdb Hd)
    as [-> _].
  unfold handle_tool_changes.
  erewrite bind_ok by exact Hs. erewrite bind_ok by exact Hd. simpl.
  erewrite bind_ok
    by (apply insert_loop_empty; unfold to_insert; rewrite Hkeys;
        apply difference_diag_L).
  erewrite bind_ok
    by (apply deactivate_loop_nothing; unfold to_deactivate; rewrite Hkeys;
        apply difference_diag_L).
  erewrite bind_ok.
  2:{ rewrite (get_db_tools_table env app true w rows Hdb), Hfresh.
      reflexivity. }
  by rewrite Hdb.
Qed.

Lemma pass_noop_witness :
  let r := Runtimes.mk "toolA/1.0" (Some "toolA") "1.0" 999999999 (Some 3)
             (Some 1) (Some 2) (Some 2) (Some 4) (Some 5) (Some 6) true in
  let env := mkEnv (λ _, 1000000000) example_datetime
               [("toolA/1.0", Some "1.0")] (λ _ _, 0)
               (λ _ _, Aggregates.null) in
  let app := mkApp "runtimes.sqlite" None "https://usegalaxy.org" "7 days" in
  threshold env app 1000000000 = Some 999395200
  ∧ handle_tool_changes env app (mkWorld (Table [r]) 0 [] [])
    = (mkWorld (Table [r]) 1 [] [], Ok tt).
Proof.
  intros r env app. split; [reflexivity|].
  apply (pass_noop env app (mkWorld (Table [r]) 0 [] []) _ _ [r] _ _
           eq_refl eq_refl eq_refl).
  - vm_compute. reflexivity.
  - vm_compute. reflexivity.
Defined.

(** X15. A tool inserted in a pass is not refreshed in it while the clock
    stays within the window.  In a pass with nothing to deactivate, whose
    new tools can all be stored, when the threshold of the staleness query,
    if SQLite gives one, is not after the time of any insertion, the pass
    goes on to refresh candidates that were all in the active listing it
    started from: none of the keys it inserted is among them. *)
Theorem inserted_not_refreshed (env : Env) (app : App) (w w1 w2 : World)
    (rows : list Runtimes.row) (server_tools db_tools : Dict.t) :
  db w = Table rows →
  get_server_tools env w = (w1, Ok server_tools) →
  get_db_tools env app false w1 = (w2, Ok db_tools) →
  to_deactivate (Dict.keys server_tools) (Dict.keys db_tools) = ∅ →
  (∀ k t, k ∈ to_insert (Dict.keys server_tools) (Dict.keys db_tools) →
     Dict.get server_tools k = Ok t →
     storable env INSERT_TOOL_SQL t) →
  (∀ (j : nat) th,
     (j < size (to_insert (Dict.keys server_tools) (Dict.keys db_tools)))%nat →
     threshold env app
       (clock env
          (ticks w
           + size (to_insert (Dict.keys server_tools) (Dict.keys db_tools)))%nat)
     = Some th →
     (th ≤ clock env (ticks w + j)%nat)%Z) →
  ∃ w3 w5 stale,
    insert_loop env server_tools (Dict.keys server_tools)
      (Dict.keys db_tools) w = (w3, Ok tt)
    ∧ get_db_tools env app true w3 = (w5, Ok stale)
    ∧ handle_tool_changes env app w = refresh_loop env stale w5
    ∧ Dict.keys stale ⊆ Dict.keys db_tools
    ∧ (∀ k, k ∈ to_insert (Dict.keys server_tools) (Dict.keys db_tools) →
         k ∉ Dict.keys stale).
Proof.
  intros Hdb Hs Hd Hnone Hcomp Hclock.
  assert (w1 = w) as ->.
  { rewrite get_server_tools_eq in Hs. by injection Hs as <- _. }
  destruct (get_db_tools_listing env app w w2 rows db_tools Hdb Hd)
    as (-> & tools & Htools & ->).
  set (ins := to_insert (Dict.keys server_tools)
                (Dict.keys (Dict.of_tools tools))) in *.
  destruct (insert_each env server_tools (elements ins) w rows Hdb)
    as (w3 & new & Hrun & Hdb3 & Ht3 & Hlen & Hrows).
  { intros k Hk. apply elem_of_elements in Hk.
    assert (Hin : k ∈ map fst server_tools).
    { unfold ins, to_insert in Hk. apply elem_of_difference in Hk as [Hk _].
      unfold Dict.keys in Hk. by apply elem_of_list_to_set in Hk. }
    destruct (Dict_get_elem _ _ Hin) as (t & Hget & _).
    exists t. split; [done|]. by eapply Hcomp. }
  set (P := λ r, Runtimes.active r = true
                 ∧ (true = true
                    → before (threshold env app (clock env (ticks w3)))
                        (Runtimes.update_time r) = true)).
  assert (Hsel : select_active true (threshold env app (clock env (ticks w3)))
                   (rows ++ new) = filter P rows).
  { unfold select_active. fold P. rewrite filter_app.
    rewrite (filter_none P new); [by rewrite app_nil_r|].
    intros r Hr [_ Hold]. apply list_elem_of_lookup in Hr as [j Hj].
    assert (Hjl : (j < length (elements ins))%nat).
    { rewrite <- Hlen. by eapply lookup_lt_Some. }
    destruct (lookup_lt_is_Some_2 _ _ Hjl) as [k Hk].
    destruct (Hrows j k Hk) as (t & r' & _ & Hr' & _ & _ & Hut & _).
    assert (r' = r) as -> by congruence.
    specialize (Hold eq_refl). rewrite Ht3 in Hold.
    destruct (threshold env app (clock env (ticks w + length (elements ins))))
      as [th|] eqn:Hth; [|done].
    simpl in Hold. apply Z.ltb_lt in Hold.
    specialize (Hclock j th Hjl Hth). rewrite Hut in Hold. lia. }
  destruct (map_result_weaken tool_factory (λ r, Runtimes.active r = true) P
              rows tools) as (st & Hst & Hsub);
    [by intros x [? _] | exact Htools |].
  assert (Hq : get_db_tools env app true w3
               = (mkWorld (db w3) (S (ticks w3)) (stdout w3) (committed w3),
                  Ok (Dict.of_tools st))).
  { rewrite (get_db_tools_table env app true w3 (rows ++ new) Hdb3).
    by rewrite Hsel, Hst. }
  assert (Hkeys : Dict.keys (Dict.of_tools st)
                  ⊆ Dict.keys (Dict.of_tools tools)).
  { rewrite !Dict_keys_of_tools. intros k.
    rewrite !elem_of_list_to_set, !list_elem_of_fmap.
    intros (t & -> & Ht). exists t. split; [done|]. by apply Hsub. }
  eexists w3, _, _. split_and!; [exact Hrun|exact Hq| |exact Hkeys|].
  - unfold handle_tool_changes.
    erewrite bind_ok by exact Hs. erewrite bind_ok by exact Hd. simpl.
    erewrite bind_ok by exact Hrun.
    erewrite bind_ok by (by apply deactivate_loop_nothing).
    by erewrite bind_ok by exact Hq.
  - intros k Hk Hk'. apply Hkeys in Hk'.
    unfold ins, to_insert in Hk. apply elem_of_difference in Hk as [_ Hk].
    done.
Qed.

Lemma inserted_not_refreshed_witness :
  let a := Aggregates.mk (Some (Finite (1 # 1))) (Some (Finite (2 # 1)))
             (Some (Finite (129 # 10))) (Some (Finite (129 # 10)))
             (Some (Finite (15 # 1))) (Some (Finite (199 # 10)))
             (Some (Finite (201 # 10))) (Some (Finite (21 # 1)))
             (Some (Finite (54 # 1))) (Some (Finite (7 # 1))) in
  let env := mkEnv (λ n, 1000000000 + Z.of_nat n) example_datetime
               [("toolA/1.0", Some "1.0"); ("toolB/2.0", Some "2.0")]
               (λ _ _, 4) (λ _ _, a) in
  let app := mkApp "runtimes.sqlite" None "https://usegalaxy.org" "7 days" in
  let rB := Runtimes.mk "toolB/2.0" (Some "toolB") "2.0" 0 (Some 3) (Some 1)
              (Some 2) (Some 2) (Some 4) (Some 5) (Some 6) true in
  let tB := mkTool "toolB/2.0" "2.0" (Some "toolB") (Some 0) (Some 3) (Some 1)
              (Some 2) (Some 2) (Some 4) (Some 5) (Some 6) (FlagInt 1) in
  ∃ w5 stale,
    handle_tool_changes env app (mkWorld (Table [rB]) 0 [] [])
    = refresh_loop env stale w5
    ∧ Dict.keys stale ⊆ Dict.keys [("toolB/2.0", tB)]
    ∧ "toolA/1.0" ∉ Dict.keys stale.
Proof.
  intros a env app rB tB.
  pose (tA0 := mkTool "toolA/1.0" "1.0" (Some "toolA") None (Some (-1)) None
                 None None None None None (FlagBool true)).
  pose (tB0 := mkTool "toolB/2.0" "2.0" (Some "toolB") None (Some (-1)) None
                 None None None None None (FlagBool true)).
  destruct (inserted_not_refreshed env app (mkWorld (Table [rB]) 0 [] [])
              (mkWorld (Table [rB]) 0 [] []) (mkWorld (Table [rB]) 0 [] [])
              [rB] [("toolA/1.0", tA0); ("toolB/2.0", tB0)]
              [("toolB/2.0", tB)] eq_refl eq_refl eq_refl)
    as (w3 & w5 & stale & _ & _ & Hpass & Hsub & Hnot).
  - vm_compute. reflexivity.
  - intros k t _ Hget.
    assert (Hk : k = "toolA/1.0" ∨ k = "toolB/2.0").
    { cbn [Dict.get] in Hget. destruct (String.eqb "toolA/1.0" k) eqn:E1.
      - left. symmetry. by apply String.eqb_eq.
      - destruct (String.eqb "toolB/2.0" k) eqn:E2; [|discriminate Hget].
        right. symmetry. by apply String.eqb_eq. }
    destruct Hk as [-> | ->]; vm_compute in Hget; injection Hget as <-.
    + exists (mkTool "toolA/1.0" "1.0" (Some "toolA") None (Some 4) (Some 1)
                (Some 13) (Some 12) (Some 20) (Some 20) (Some 21)
                (FlagBool true)).
      split; vm_compute; reflexivity.
    + exists (mkTool "toolB/2.0" "2.0" (Some "toolB") None (Some 4) (Some 1)
                (Some 13) (Some 12) (Some 20) (Some 20) (Some 21)
                (FlagBool true)).
      split; vm_compute; reflexivity.
  - intros j th _ Hth. vm_compute in Hth. injection Hth as <-.
    change (999395201 ≤ 1000000000 + Z.of_nat (0 + j))%Z. lia.
  - exists w5, stale. split; [exact Hpass|]. split; [exact Hsub|].
    apply Hnot. vm_compute. reflexivity.
Defined.

(** ** Rows are kept *)

Section RowsKept.

Variable env : Env.

Lemma preserved_refl rows : preserved rows rows.
Proof. intros i r Hi. by exists r. Qed.

Lemma preserved_trans rows1 rows2 rows3 :
  preserved rows1 rows2 → preserved rows2 rows3 → preserved rows1 rows3.
Proof.
  intros H12 H23 i r Hi.
  destruct (H12 i r Hi) as (r2 & Hi2 & E2).
  destruct (H23 i r2 Hi2) as (r3 & Hi3 & E3).
  exists r3. split; [done|congruence].
Qed.

Lemma preserved_execute s tool now rows :
  preserved rows (execute s (upsert_values tool) now rows).
Proof.
  intros i r Hi. destruct s; simpl.
  - exists r. split; [|done]. by apply lookup_app_l_Some.
  - rewrite list_lookup_fmap, Hi. simpl. eexists. split; [done|].
    destruct (matches (upsert_values tool) r) eqn:Hm; [|done].
    apply matches_row_of in Hm as [Hid _].
    unfold identity. simpl. by rewrite Hid.
  - rewrite list_lookup_fmap, Hi. simpl. eexists. split; [done|].
    by destruct (matches (upsert_values tool) r).
Qed.

Lemma keeps_rows_refl w : keeps_rows w w.
Proof. intros rows Hdb. exists rows. split; [done|apply preserved_refl]. Qed.

Lemma keeps_rows_trans w1 w2 w3 :
  keeps_rows w1 w2 → keeps_rows w2 w3 → keeps_rows w1 w3.
Proof.
  intros H12 H23 rows Hdb.
  destruct (H12 rows Hdb) as (rows2 & Hdb2 & P2).
  destruct (H23 rows2 Hdb2) as (rows3 & Hdb3 & P3).
  exists rows3. split; [done|]. by eapply preserved_trans.
Qed.

Lemma rp_lift {A} (r : result A) : row_preserving (lift r).
Proof. intros w w' res [= <- _]. apply keeps_rows_refl. Qed.

Lemma rp_ret {A} (a : A) : row_preserving (mret a : M A).
Proof. intros w w' res [= <- _]. apply keeps_rows_refl. Qed.

Lemma rp_bind {A B} (m : M A) (f : A → M B) :
  row_preserving m → (∀ a, row_preserving (f a)) → row_preserving (m ≫= f).
Proof.
  intros Hm Hf w w' res. unfold mbind, M_bind, bind.
  destruct (m w) as [w1 [a|e]] eqn:E.
  - intros H. eapply keeps_rows_trans; [by eapply Hm|by eapply Hf].
  - intros [= <- _]. by eapply Hm.
Qed.

Lemma rp_for_each {A} (l : list A) (body : A → M unit) :
  (∀ x, row_preserving (body x)) → row_preserving (for_each l body).
Proof.
  intros Hbody. induction l as [|x l IH]; simpl.
  - intros w w' res [= <- _]. apply keeps_rows_refl.
  - apply (rp_bind (body x) (λ _, for_each l body)); [apply Hbody|done].
Qed.

Lemma rp_print s : row_preserving (print s).
Proof.
  intros w w' res [= <- _] rows Hdb. exists rows.
  split; [done|apply preserved_refl].
Qed.

Lemma rp_local {A} name (v : option A) : row_preserving (local name v).
Proof. destruct v; intros w w' res [= <- _]; apply keeps_rows_refl. Qed.

Lemma rp_commit_tool tool s : row_preserving (commit_tool env tool s).
Proof.
  intros w w' res H rows Hdb.
  destruct (bindable s (upsert_values tool)) eqn:Hb.
  - rewrite (commit_tool_table _ _ _ _ rows Hdb Hb) in H. injection H as <- _.
    eexists. split; [done|]. apply preserved_execute.
  - rewrite (commit_tool_overflow _ _ _ _ rows Hdb Hb) in H.
    injection H as <- _. exists rows. split; [done|apply preserved_refl].
Qed.

Lemma rp_upsert_tool tool s : row_preserving (upsert_tool env tool s).
Proof.
  unfold upsert_tool.
  apply rp_bind; [apply rp_ret|]. intros count.
  apply rp_bind; [apply rp_lift|]. intros summary.
  apply rp_bind; [apply rp_lift|]. intros t.
  apply rp_bind; [apply rp_print|]. intros _. apply rp_commit_tool.
Qed.

Lemma rp_get_server_tools : row_preserving (get_server_tools env).
Proof.
  intros w w' res. rewrite get_server_tools_eq. intros [= <- _].
  apply keeps_rows_refl.
Qed.

Lemma rp_get_db_tools app for_update :
  row_preserving (get_db_tools env app for_update).
Proof.
  intros w w' res H rows Hdb.
  rewrite (get_db_tools_table env app for_update w rows Hdb) in H.
  injection H as <- _. exists rows. split; [done|apply preserved_refl].
Qed.

Lemma rp_handle_tool_changes app :
  row_preserving (handle_tool_changes env app).
Proof.
  unfold handle_tool_changes.
  apply rp_bind; [apply rp_get_server_tools|]. intros server_tools.
  apply rp_bind; [apply rp_get_db_tools|]. intros db_tools. simpl.
  apply rp_bind.
  { apply rp_for_each. intros k.
    apply rp_bind; [apply rp_lift|]. intros t. apply rp_upsert_tool. }
  intros _. apply rp_bind.
  { apply rp_for_each. intros k.
    apply rp_bind; [apply rp_local|]. intros t.
    apply rp_bind; [apply rp_print|]. intros _. apply rp_commit_tool. }
  intros _. apply rp_bind; [apply rp_get_db_tools|]. intros stale.
  apply rp_for_each. intros item. apply rp_upsert_tool.
Qed.

End RowsKept.

(** X16. A pass never removes a row and never renames one.  However
    [handle_tool_changes] ends, with a result or with an exception, the
    table still exists afterwards, has at least as many rows, and every row
    it had is at the same place with the same [tool_id], [base_tool_id] and
    [tool_version]. *)
Theorem pass_keeps_rows (env : Env) (app : App) (w w' : World)
    (res : result unit) (rows : list Runtimes.row) :
  db w = Table rows →
  handle_tool_changes env app w = (w', res) →
  ∃ rows',
    db w' = Table rows'
    ∧ (length rows ≤ length rows')%nat
    ∧ ∀ (i : nat) r, rows !! i = Some r →
        ∃ r', rows' !! i = Some r'
              ∧ Runtimes.tool_id r' = Runtimes.tool_id r
              ∧ Runtimes.base_tool_id r' = Runtimes.base_tool_id r
              ∧ Runtimes.tool_version r' = Runtimes.tool_version r.
Proof.
  intros Hdb Hrun.
  destruct (rp_handle_tool_changes env app w w' res Hrun rows Hdb)
    as (rows' & Hdb' & Hkept).
  exists rows'. split_and!; [done| |].
  - destruct (decide (length rows ≤ length rows')%nat) as [?|Hlt]; [lia|].
    destruct (lookup_lt_is_Some_2 rows (length rows')) as [r Hr]; [lia|].
    destruct (Hkept _ r Hr) as (r' & Hr' & _).
    apply lookup_lt_Some in Hr'. lia.
  - intros i r Hi. destruct (Hkept i r Hi) as (r' & Hr' & Hid).
    exists r'. unfold identity in Hid. injection Hid as ? ? ?. done.
Qed.

Lemma pass_keeps_rows_witness :
  let toolB := Runtimes.mk "toolB/2.0" (Some "toolB") "2.0" 5 (Some 3)
                 (Some 1) (Some 2) (Some 2) (Some 4) (Some 5) (Some 6) true in
  let w := mkWorld (Table [toolB]) 0 [] [] in
  ∃ rows', db w = Table rows' ∧ (length [toolB] ≤ length rows')%nat.
Proof.
  intros toolB w.
  destruct (pass_keeps_rows
              (mkEnv (λ _, 9) example_datetime [] (λ _ _, 0)
                 (λ _ _, Aggregates.null))
              (mkApp "runtimes.sqlite" None "https://usegalaxy.org"
                 default_older_than)
              w w (Raise (UnboundLocalError "tool")) [toolB] eq_refl eq_refl)
    as (rows' & Hdb & Hlen & _).
  exists rows'. split; [exact Hdb | exact Hlen].
Defined.

(** ** Refreshing and reading rows *)

Section Readable.

Variable env : Env.

Lemma select_after_update tool now0 threshold rows :
  (∀ th, threshold = Some th → (th ≤ now0)%Z) →
  select_active true threshold
    (execute UPDATE_TOOL_SQL (upsert_values tool) now0 rows)
  = filter (λ r, ¬ row_of tool r) (select_active true threshold rows).
Proof.
  intros Hnow. unfold select_active. simpl.
  set (P := λ r, Runtimes.active r = true
                 ∧ (true = true
                    → before threshold (Runtimes.update_time r) = true)).
  induction rows as [|r l IH]; [done|].
  simpl. rewrite !filter_cons.
  destruct (matches (upsert_values tool) r) eqn:Hm.
  - apply matches_row_of in Hm as Hrow.
    destruct (decide (P (updated (upsert_values tool) now0 r)))
      as [[_ Hold]|_].
    { specialize (Hold eq_refl). simpl in Hold.
      destruct threshold as [th|]; [|done]. simpl in Hold.
      apply Z.ltb_lt in Hold. specialize (Hnow th eq_refl). lia. }
    destruct (decide (P r)); [|exact IH].
    rewrite filter_cons. destruct (decide (¬ row_of tool r)); [done|exact IH].
  - apply matches_not_row_of in Hm as Hrow.
    destruct (decide (P r)); [|exact IH].
    rewrite filter_cons. destruct (decide (¬ row_of tool r)); [|done].
    by rewrite IH.
Qed.

Lemma readable_factory r : readable r → ∃ t, tool_factory r = Ok t.
Proof.
  intros (b & rest & Hb & Hid). unfold tool_factory, Tool_init.
  rewrite (set_base_id_explicit _ b) by (simpl; exact Hb). simpl.
  rewrite Hid, startswith_app. by eexists.
Qed.

Lemma map_result_all {A B} (f : A → result B) (l : list A) :
  (∀ x, x ∈ l → ∃ y, f x = Ok y) → ∃ ys, map_result f l = Ok ys.
Proof.
  induction l as [|a l IH]; intros Hl; [by exists []|].
  destruct (Hl a) as [y Hy]; [apply list_elem_of_here|].
  destruct IH as [ys Hys].
  { intros x Hx. by apply Hl, list_elem_of_further. }
  simpl. rewrite Hy, Hys. simpl. by eexists.
Qed.

Lemma readable_execute s tool now rows :
  (s = INSERT_TOOL_SQL → well_based tool) →
  Forall readable rows →
  Forall readable (execute s (upsert_values tool) now rows).
Proof.
  intros Htool Hrows. destruct s; simpl.
  - apply Forall_app. split; [done|]. apply Forall_singleton.
    destruct (Htool eq_refl) as (b & rest & Hb & Hid). by exists b, rest.
  - apply Forall_fmap. eapply Forall_impl; [exact Hrows|].
    intros r Hr. simpl.
    destruct (matches (upsert_values tool) r) eqn:Hm; [|done].
    apply matches_row_of in Hm as [Hid _].
    destruct Hr as (b & rest & Hb & Hr). exists b, rest. simpl.
    split; [done|congruence].
  - apply Forall_fmap. eapply Forall_impl; [exact Hrows|].
    intros r Hr. simpl. by destruct (matches (upsert_values tool) r).
Qed.

Lemma kr_weaken {A} (m : M A) (Q R : A → Prop) :
  keeps_readable m Q → (∀ a, Q a → R a) → keeps_readable m R.
Proof.
  intros Hm HQR w w' r Hrun Hw. destruct (Hm w w' r Hrun Hw) as [? HQ].
  split; [done|]. intros a Ha. by apply HQR, HQ.
Qed.

Lemma kr_pure {A} (r : result A) (Q : A → Prop) :
  (∀ a, r = Ok a → Q a) → keeps_readable (lift r) Q.
Proof. intros HQ w w' res [= <- <-] Hw. by split. Qed.

Lemma kr_bind {A B} (m : M A) (f : A → M B) (Q : A → Prop) (R : B → Prop) :
  keeps_readable m Q → (∀ a, Q a → keeps_readable (f a) R) →
  keeps_readable (m ≫= f) R.
Proof.
  intros Hm Hf w w' res. unfold mbind, M_bind, bind.
  destruct (m w) as [w1 [a|e]] eqn:E; intros Hrun Hw.
  - destruct (Hm w w1 (Ok a) E Hw) as [Hw1 HQ].
    by apply (Hf a (HQ a eq_refl) w1 w' res).
  - injection Hrun as <- <-. destruct (Hm w w1 (Raise e) E Hw) as [Hw1 _].
    by split.
Qed.

Lemma kr_for_each {A} (l : list A) (body : A → M unit) :
  (∀ x, keeps_readable (body x) (λ _, True)) →
  keeps_readable (for_each l body) (λ _, True).
Proof.
  intros Hbody. induction l as [|x l IH]; simpl.
  - intros w w' res [= <- _] Hw. by split.
  - apply (kr_bind (body x) (λ _, for_each l body) (λ _, True)); [done|].
    by intros _ _.
Qed.

Lemma kr_print s : keeps_readable (print s) (λ _, True).
Proof. intros w w' res [= <- _] Hw. by split. Qed.

Lemma kr_commit_tool tool s :
  (s = INSERT_TOOL_SQL → well_based tool) →
  keeps_readable (commit_tool env tool s) (λ _, True).
Proof.
  intros Htool w w' res Hrun Hw. split; [|done].
  destruct (db w) as [| |rows] eqn:Hdb.
  - unfold commit_tool in Hrun. erewrite bind_raise in Hrun
      by (unfold table_rows; by rewrite Hdb).
    injection Hrun as <- _. by intros rows' [=].
  - unfold commit_tool in Hrun. erewrite bind_raise in Hrun
      by (unfold table_rows; by rewrite Hdb).
    injection Hrun as <- _. by intros rows' [=].
  - destruct (bindable s (upsert_values tool)) eqn:Hb.
    + rewrite (commit_tool_table _ _ _ _ rows Hdb Hb) in Hrun.
      injection Hrun as <- _. intros rows' [= <-].
      apply readable_execute; [done|]. by apply Hw.
    + rewrite (commit_tool_overflow _ _ _ _ rows Hdb Hb) in Hrun.
      by injection Hrun as <- _.
Qed.

Lemma update_stats_based t s t' :
  update_stats t s = Ok t' → well_based t → well_based t'.
Proof.
  unfold update_stats.
  destruct (py_int (Summary.min s)), (py_int (Summary.median s)),
    (py_int (Summary.mean s)), (py_int (Summary.perc_95 s)),
    (py_int (Summary.perc_99 s)), (py_int (Summary.max s)); simpl; try done.
  by intros [= <-].
Qed.

Lemma kr_upsert_tool tool s :
  (s = INSERT_TOOL_SQL → well_based tool) →
  keeps_readable (upsert_tool env tool s) (λ _, True).
Proof.
  intros Htool. unfold upsert_tool.
  eapply kr_bind; [apply (kr_pure _ (λ _, True)); done|]. intros count _.
  eapply kr_bind; [apply (kr_pure _ (λ _, True)); done|]. intros summary _.
  eapply (kr_bind _ _ (λ t, s = INSERT_TOOL_SQL → well_based t)).
  { apply kr_pure. intros t Ht Hs.
    eapply update_stats_based; [exact Ht|]. by apply Htool. }
  intros t Ht. eapply kr_bind; [apply kr_print|]. intros _ _.
  by apply kr_commit_tool.
Qed.

Lemma kr_get_db_tools app for_update :
  keeps_readable (get_db_tools env app for_update) (λ _, True).
Proof.
  intros w w' res Hrun Hw. split; [|done].
  destruct (db w) as [| |rows] eqn:Hdb.
  - unfold get_db_tools in Hrun. erewrite bind_raise in Hrun
      by (unfold table_rows; by rewrite Hdb).
    injection Hrun as <- _. by intros rows' [=].
  - unfold get_db_tools in Hrun. erewrite bind_raise in Hrun
      by (unfold table_rows; by rewrite Hdb).
    injection Hrun as <- _. by intros rows' [=].
  - rewrite (get_db_tools_table env app for_update w rows Hdb) in Hrun.
    injection Hrun as <- _. intros rows' Hdb'. simpl in Hdb'.
    rewrite Hdb in Hdb'. injection Hdb' as <-. exact (Hw rows Hdb).
Qed.

Lemma Tool_new_based i vo t : Tool_new i vo None = Ok t → well_based t.
Proof.
  unfold Tool_new, Tool_init. destruct vo as [v|]; [|done]. intros Ht.
  destruct (set_base_id_ok _ _ Ht) as (b & -> & Hpre). simpl in *.
  apply startswith_inv in Hpre as [rest Hr]. by exists b, rest.
Qed.

(** The tools of the catalog dictionary all have a prefix base id. *)
Lemma kr_get_server_tools :
  keeps_readable (get_server_tools env)
    (λ st, ∀ k t, Dict.get st k = Ok t → well_based t).
Proof.
  intros w w' res. rewrite get_server_tools_eq. intros [= <- <-] Hw.
  split; [done|]. intros st Hst k t Hget.
  destruct (map_result _ (catalog env)) as [tools|] eqn:Htools; [|done].
  injection Hst as <-.
  assert (Hin : (k, t) ∈ Dict.of_tools tools).
  { destruct (decide (k ∈ map fst (Dict.of_tools tools))) as [Hk|Hk].
    - destruct (Dict_get_elem _ _ Hk) as (t0 & Hget0 & Hel). congruence.
    - rewrite (Dict_get_missing _ _ Hk) in Hget. done. }
  destruct (of_tools_inv tools) as [_ Hinv].
  destruct (Hinv _ _ Hin) as [_ Ht].
  destruct (map_result_elem_inv _ _ _ _ Htools Ht) as ([i vo] & _ & Hnew).
  by eapply Tool_new_based.
Qed.

Lemma kr_handle_tool_changes app :
  keeps_readable (handle_tool_changes env app) (λ _, True).
Proof.
  unfold handle_tool_changes.
  eapply kr_bind; [apply kr_get_server_tools|]. intros server_tools Hst.
  eapply kr_bind; [apply kr_get_db_tools|]. intros db_tools _. simpl.
  eapply kr_bind.
  { apply kr_for_each. intros k.
    eapply (kr_bind _ _ well_based).
    - apply kr_pure. intros t Ht. by eapply Hst.
    - intros t Ht. by apply kr_upsert_tool. }
  intros _ _. eapply kr_bind.
  { apply kr_for_each. intros k.
    eapply kr_bind; [apply (kr_pure _ (λ _, True)); done|]. intros t _.
    eapply kr_bind; [apply kr_print|]. intros _ _.
    by apply kr_commit_tool. }
  intros _ _. eapply kr_bind; [apply kr_get_db_tools|]. intros stale _.
  apply kr_for_each. intros item. by apply kr_upsert_tool.
Qed.

End Readable.

(** X17. A refreshed tool is no longer stale.  After UPDATE_TOOL_SQL is run
    for a tool whose run count and runtimes can be bound, a staleness query
    whose threshold is null or not later than the time of that statement
    selects what it would have selected before, less the rows of that tool:
    a second pass within the window does not refresh it again. *)
Theorem refreshed_not_stale (env : Env) (tool : Tool) (w : World)
    (rows : list Runtimes.row) (threshold : option Z) :
  db w = Table rows →
  bindable UPDATE_TOOL_SQL (upsert_values tool) = true →
  (∀ th, threshold = Some th → (th ≤ clock env (ticks w))%Z) →
  ∃ w' rows',
    commit_tool env tool UPDATE_TOOL_SQL w = (w', Ok tt)
    ∧ db w' = Table rows'
    ∧ select_active true threshold rows'
      = filter (λ r, ¬ row_of tool r) (select_active true threshold rows).
Proof.
  intros Hdb Hb Hnow. rewrite (commit_tool_table _ _ _ _ rows Hdb Hb).
  eexists _, _. split_and!; [done|done|]. by apply select_after_update.
Qed.

Lemma refreshed_not_stale_witness :
  let r := Runtimes.mk "toolB/2.0" (Some "toolB") "2.0" 5 (Some 3) (Some 1)
             (Some 2) (Some 2) (Some 4) (Some 5) (Some 6) true in
  let env := mkEnv (λ _, 1000000000) example_datetime [] (λ _ _, 0)
               (λ _ _, Aggregates.null) in
  let app := mkApp "runtimes.sqlite" None "https://usegalaxy.org" "7 days" in
  select_active true (threshold env app 1000000001) [r] = [r]
  ∧ ∃ w' rows',
      commit_tool env
        (mkTool "toolB/2.0" "2.0" (Some "toolB") (Some 5) (Some 7) (Some 2)
           (Some 3) (Some 3) (Some 5) (Some 6) (Some 7) (FlagInt 1))
        UPDATE_TOOL_SQL (mkWorld (Table [r]) 0 [] []) = (w', Ok tt)
      ∧ db w' = Table rows'
      ∧ select_active true (threshold env app 1000000001) rows' = [].
Proof.
  intros r env app. split; [reflexivity|].
  destruct (refreshed_not_stale env
              (mkTool "toolB/2.0" "2.0" (Some "toolB") (Some 5) (Some 7)
                 (Some 2) (Some 3) (Some 3) (Some 5) (Some 6) (Some 7)
                 (FlagInt 1))
              (mkWorld (Table [r]) 0 [] []) [r]
              (threshold env app 1000000001) eq_refl eq_refl)
    as (w' & rows' & Hrun & Hdb & Hsel).
  - intros th Hth. vm_compute in Hth. injection Hth as <-.
    vm_compute. intros H. discriminate H.
  - exists w', rows'. split; [exact Hrun|]. split; [exact Hdb|].
    rewrite Hsel. reflexivity.
Defined.

(** X18. One active row that [tool_factory] rejects stops every pass.  When
    the table holds an active row whose [base_tool_id] is not a prefix of
    its [tool_id] (or is null with a [tool_id] whose last part is not the
    version), a pass with a well-formed catalog raises an assertion error
    at its first listing and leaves the world as it was. *)
Theorem unreadable_row_blocks (env : Env) (app : App) (w w1 : World)
    (rows : list Runtimes.row) (server_tools : Dict.t) (r : Runtimes.row)
    (e0 : exn) :
  db w = Table rows →
  get_server_tools env w = (w1, Ok server_tools) →
  r ∈ rows → Runtimes.active r = true → tool_factory r = Raise e0 →
  ∃ msg, handle_tool_changes env app w = (w, Raise (AssertionError msg)).
Proof.
  intros Hdb Hs Hr Hact Hbad.
  assert (w1 = w) as ->.
  { rewrite get_server_tools_eq in Hs. by injection Hs as <- _. }
  assert (Hsel : r ∈ filter (λ r, Runtimes.active r = true) rows)
    by (by apply list_elem_of_filter).
  destruct (map_result_raise tool_factory _ r e0 Hsel Hbad)
    as (pre & r' & post & e & _ & _ & Hr' & Hall).
  destruct (Tool_init_raise _ _ _ _ _ _ _ _ _ _ _ _ _ Hr') as [msg ->].
  exists msg. unfold handle_tool_changes. erewrite bind_ok by exact Hs.
  erewrite bind_raise; [done|].
  rewrite (get_db_tools_table env app false w rows Hdb).
  rewrite select_active_false, Hall. simpl. f_equal.
  destruct w. simpl in *. by subst.
Qed.

Lemma unreadable_row_blocks_witness :
  let r := Runtimes.mk "toolB/2.0" (Some "other") "2.0" 5 (Some 3) (Some 1)
             (Some 2) (Some 2) (Some 4) (Some 5) (Some 6) true in
  let env := mkEnv (λ _, 9) example_datetime [] (λ _ _, 0)
               (λ _ _, Aggregates.null) in
  let app := mkApp "runtimes.sqlite" None "https://usegalaxy.org"
               default_older_than in
  ∃ msg, handle_tool_changes env app (mkWorld (Table [r]) 0 [] [])
         = (mkWorld (Table [r]) 0 [] [], Raise (AssertionError msg)).
Proof.
  intros r env app.
  apply (unreadable_row_blocks env app (mkWorld (Table [r]) 0 [] []) _ [r] _
           r (AssertionError (Some "toolB/2.0, other")) eq_refl eq_refl).
  - apply list_elem_of_here.
  - reflexivity.
  - reflexivity.
Defined.

(** X19. The program never writes a row it cannot read.  If every row of
    the table has a base id that is a prefix of its id (as in the empty
    table [make_db] creates), then however a pass ends the table is still
    there with that property, and both listings of [get_db_tools] succeed
    on it. *)
Theorem pass_keeps_readable (env : Env) (app : App) (w w' : World)
    (res : result unit) (rows : list Runtimes.row) :
  db w = Table rows →
  Forall readable rows →
  handle_tool_changes env app w = (w', res) →
  ∃ rows',
    db w' = Table rows'
    ∧ Forall readable rows'
    ∧ ∀ for_update, ∃ w'' listed,
        get_db_tools env app for_update w' = (w'', Ok listed).
Proof.
  intros Hdb Hrows Hrun.
  destruct (rp_handle_tool_changes env app w w' res Hrun rows Hdb)
    as (rows' & Hdb' & _).
  assert (Hw : readable_world w).
  { intros rows0 Hdb0. rewrite Hdb in Hdb0. by injection Hdb0 as <-. }
  destruct (kr_handle_tool_changes env app w w' res Hrun Hw) as [Hw' _].
  exists rows'. split_and!; [done|by apply Hw'|].
  intros for_update.
  rewrite (get_db_tools_table env app for_update w' rows' Hdb').
  destruct (map_result_all tool_factory
              (select_active for_update
                 (if for_update
                  then threshold env app (clock env (ticks w'))
                  else None)
                 rows')) as [tools Htools].
  { intros r Hr. apply readable_factory.
    apply list_elem_of_filter in Hr as [_ Hr].
    pose proof (Hw' rows' Hdb') as Hall.
    rewrite Forall_forall in Hall. by apply Hall. }
  rewrite Htools. simpl. by eexists _, _.
Qed.

Lemma pass_keeps_readable_witness :
  let a := Aggregates.mk (Some (Finite (1 # 1))) (Some (Finite (2 # 1)))
             (Some (Finite (129 # 10))) (Some (Finite (129 # 10)))
             (Some (Finite (15 # 1))) (Some (Finite (199 # 10)))
             (Some (Finite (201 # 10))) (Some (Finite (21 # 1)))
             (Some (Finite (54 # 1))) (Some (Finite (7 # 1))) in
  let env := mkEnv (λ _, 9) example_datetime [("toolA/1.0", Some "1.0")]
               (λ _ _, 4) (λ _ _, a) in
  let app := mkApp "runtimes.sqlite" None "https://usegalaxy.org"
               default_older_than in
  ∃ rows', db (handle_tool_changes env app (mkWorld (Table []) 0 [] [])).1
           = Table rows'
           ∧ Forall readable rows'.
Proof.
  intros a env app.
  destruct (pass_keeps_readable env app (mkWorld (Table []) 0 [] [])
              (handle_tool_changes env app (mkWorld (Table []) 0 [] [])).1
              (handle_tool_changes env app (mkWorld (Table []) 0 [] [])).2
              [] eq_refl (Forall_nil_2 _))
    as (rows' & Hdb & Hall & _).
  - by destruct (handle_tool_changes env app (mkWorld (Table []) 0 [] [])).
  - exists rows'. split; [exact Hdb | exact Hall].
Defined.
(** ** The summary query and the outcomes of [upsert_tool] *)

Section Summaries.

Lemma pg_bigint_ok x :
  is_ok (pg_bigint x) = true
  ↔ x = None ∨ ∃ q, x = Some (Finite q) ∧ int64 (rint q) = true.
Proof.
  destruct x as [[q| |b]|]; simpl.
  - destruct (int64 (rint q)) eqn:E; simpl; split; try done.
    + intros _. right. by exists q.
    + intros [[=]|(q' & [= <-] & Hq)]. congruence.
  - split; [done|]. by intros [[=]|(q & [=] & _)].
  - split; [done|]. by intros [[=]|(q & [=] & _)].
  - split; [by left|done].
Qed.

Lemma pg_bigint_raise x e : pg_bigint x = Raise e → e = bigint_out_of_range.
Proof.
  destruct x as [[q| |b]|]; simpl; try congruence.
  destruct (int64 (rint q)); congruence.
Qed.

Lemma SUMMARY_SQL_raise a e :
  SUMMARY_SQL a = Raise e → e = bigint_out_of_range.
Proof.
  unfold SUMMARY_SQL.
  destruct (pg_bigint (Aggregates.percentile_25 a)) eqn:E1; simpl;
    [|intros [= <-]; by eapply pg_bigint_raise].
  destruct (pg_bigint (Aggregates.percentile_50 a)) eqn:E2; simpl;
    [|intros [= <-]; by eapply pg_bigint_raise].
  destruct (pg_bigint (Aggregates.percentile_75 a)) eqn:E3; simpl;
    [|intros [= <-]; by eapply pg_bigint_raise].
  destruct (pg_bigint (Aggregates.percentile_95 a)) eqn:E4; simpl;
    [|intros [= <-]; by eapply pg_bigint_raise].
  destruct (pg_bigint (Aggregates.percentile_99 a)) eqn:E5; simpl;
    [done|intros [= <-]; by eapply pg_bigint_raise].
Qed.

Lemma update_stats_raise self s e :
  update_stats self s = Raise e →
  e = int_of_None ∨ e = int_of_NaN ∨ e = int_of_Infinity.
Proof.
  intros He.
  assert (∃ x, py_int x = Raise e) as [x Hx].
  { unfold update_stats in He.
    destruct (py_int (Summary.min s)) eqn:E1; simpl in He;
      [|injection He as <-; by eexists].
    destruct (py_int (Summary.median s)) eqn:E2; simpl in He;
      [|injection He as <-; by eexists].
    destruct (py_int (Summary.mean s)) eqn:E3; simpl in He;
      [|injection He as <-; by eexists].
    destruct (py_int (Summary.perc_95 s)) eqn:E4; simpl in He;
      [|injection He as <-; by eexists].
    destruct (py_int (Summary.perc_99 s)) eqn:E5; simpl in He;
      [|injection He as <-; by eexists].
    destruct (py_int (Summary.max s)) eqn:E6; simpl in He; [done|].
    injection He as <-. by eexists. }
  destruct (py_int_raise x e Hx) as [[_ ->]|[[_ ->]|[_ ->]]]; auto.
Qed.

Lemma computed_raise env tool e :
  computed env tool = Raise e →
  e = bigint_out_of_range
  ∨ e = int_of_None ∨ e = int_of_NaN ∨ e = int_of_Infinity.
Proof.
  unfold computed, job_summary.
  destruct (SUMMARY_SQL _) as [s|e'] eqn:Es; simpl.
  - intros He. right. by eapply update_stats_raise.
  - intros [= <-]. left. by eapply SUMMARY_SQL_raise.
Qed.

End Summaries.

(** X20. What SUMMARY_SQL hands over.  The query succeeds exactly when each
    of its five percentiles is null or a finite number whose nearest
    integer fits [bigint]; otherwise it fails with the error of the cast.
    When it succeeds, the five percentile columns are [None] or the [int]
    the cast gives, at most one half away from the percentile, and the
    columns [min], [mean], [max], [sum] and [stddev] are the aggregates as
    they are, be they finite or not.  On an empty set of runs it succeeds
    with every column [None]. *)
Theorem summary_columns (a : Aggregates.t) :
  (is_ok (SUMMARY_SQL a) = true
   ↔ Forall (λ x, x = None ∨ ∃ q, x = Some (Finite q) ∧ int64 (rint q) = true)
       [ Aggregates.percentile_25 a; Aggregates.percentile_50 a;
         Aggregates.percentile_75 a; Aggregates.percentile_95 a;
         Aggregates.percentile_99 a ])
  ∧ (∀ e, SUMMARY_SQL a = Raise e → e = bigint_out_of_range)
  ∧ (∀ s, SUMMARY_SQL a = Ok s →
       map (λ x, bind_result (pg_bigint x) (λ z, Ok (of_int z)))
         [ Aggregates.percentile_25 a; Aggregates.percentile_50 a;
           Aggregates.percentile_75 a; Aggregates.percentile_95 a;
           Aggregates.percentile_99 a ]
       = map Ok [ Summary.quant_1st s; Summary.median s; Summary.quant_3rd s;
                  Summary.perc_95 s; Summary.perc_99 s ]
       ∧ [ Summary.min s; Summary.mean s; Summary.max s; Summary.sum s;
           Summary.stddev s ]
         = map of_decimal
             [ Aggregates.min a; Aggregates.avg a; Aggregates.max a;
               Aggregates.sum a; Aggregates.stddev a ])
  ∧ (∀ q z, pg_bigint (Some (Finite q)) = Ok (Some z) →
       z = rint q ∧ int64 z = true
       ∧ (inject_Z z - (1 # 2) <= q ∧ q <= inject_Z z + (1 # 2))%Q)
  ∧ SUMMARY_SQL Aggregates.null = Ok Summary.null.
Proof.
  split_and!.
  - rewrite !Forall_cons, Forall_nil, <- !pg_bigint_ok. unfold SUMMARY_SQL.
    destruct (pg_bigint (Aggregates.percentile_25 a)),
      (pg_bigint (Aggregates.percentile_50 a)),
      (pg_bigint (Aggregates.percentile_75 a)),
      (pg_bigint (Aggregates.percentile_95 a)),
      (pg_bigint (Aggregates.percentile_99 a)); simpl; intuition congruence.
  - apply SUMMARY_SQL_raise.
  - intros s. unfold SUMMARY_SQL. cbn [map].
    destruct (pg_bigint (Aggregates.percentile_25 a)),
      (pg_bigint (Aggregates.percentile_50 a)),
      (pg_bigint (Aggregates.percentile_75 a)),
      (pg_bigint (Aggregates.percentile_95 a)),
      (pg_bigint (Aggregates.percentile_99 a)); simpl; try done.
    by intros [= <-].
  - intros q z. simpl. destruct (int64 (rint q)) eqn:E; [|done].
    intros [= <-]. split_and!; [done|done|apply rint_bounds..].
  - reflexivity.
Qed.

Lemma summary_columns_witness :
  let a := Aggregates.mk (Some NaN) (Some (Finite (5 # 2)))
             (Some (Finite (129 # 10))) (Some (Infinity false))
             (Some (Finite (7 # 2))) None (Some (Finite (201 # 10)))
             (Some (Finite (21 # 1))) (Some (Finite (54 # 1))) None in
  is_ok (SUMMARY_SQL a) = true
  ∧ SUMMARY_SQL a
    = Ok (Summary.mk (PyDecimal NaN) (PyInt 2) (PyInt 13)
            (PyDecimal (Infinity false)) (PyInt 4) PyNone (PyInt 20)
            (PyDecimal (Finite (21 # 1))) (PyDecimal (Finite (54 # 1)))
            PyNone).
Proof.
  intros a. split; [|reflexivity].
  apply (proj2 (proj1 (summary_columns a))).
  repeat apply Forall_cons_2;
    [ right; by eexists | right; by eexists | right; by eexists | by left
    | right; by eexists | apply Forall_nil_2 ].
Defined.

(** X21. The three ways [upsert_tool] ends on an existing table.  When the
    summary query or [update_stats] fails, it raises that error (the error
    of the cast or one of the three of [int]) with nothing printed and
    nothing written.  When the statistics are computed and can be bound, it
    prints the tool, runs the statement with the tool's parameters at the
    time it reads, and commits.  When they are computed and one of the
    integers cannot be bound, the line for the tool is printed all the same
    and [sqlite3] raises [OverflowError]: the table, the clock and the
    committed statements are as before. *)
Theorem upsert_tool_outcome (env : Env) (tool : Tool) (s : sql) (w : World)
    (rows : list Runtimes.row) :
  db w = Table rows →
  (∀ e, computed env tool = Raise e →
     upsert_tool env tool s w = (w, Raise e)
     ∧ (e = bigint_out_of_range
        ∨ e = int_of_None ∨ e = int_of_NaN ∨ e = int_of_Infinity))
  ∧ (∀ t', computed env tool = Ok t' →
       bindable s (upsert_values t') = true →
       upsert_tool env tool s w
       = (mkWorld
            (Table (execute s (upsert_values t') (clock env (ticks w)) rows))
            (S (ticks w)) (stdout w ++ [Tool_str t'])
            (committed w ++ [(s, upsert_values t')]),
          Ok tt))
  ∧ (∀ t', computed env tool = Ok t' →
       bindable s (upsert_values t') = false →
       upsert_tool env tool s w
       = (mkWorld (db w) (ticks w) (stdout w ++ [Tool_str t']) (committed w),
          Raise int_too_large)).
Proof.
  intros Hdb. split_and!.
  - intros e He. split; [by apply upsert_tool_fails|].
    by eapply computed_raise.
  - intros t' Hc Hb. by apply upsert_tool_computed.
  - intros t' Hc Hb. by apply (upsert_tool_overflow env tool t' s w rows).
Qed.

Lemma upsert_tool_outcome_witness :
  let a := Aggregates.mk (Some (Finite (1 # 1))) (Some (Finite (2 # 1)))
             (Some (Finite (129 # 10))) (Some (Finite (129 # 10)))
             (Some (Finite (15 # 1))) (Some (Finite (199 # 10)))
             (Some (Finite (201 # 10)))
             (Some (Finite (9223372036854775808 # 1)))
             (Some (Finite (54 # 1))) (Some (Finite (7 # 1))) in
  let env := mkEnv (λ _, 9) example_datetime [] (λ _ _, 4) (λ _ _, a) in
  let tool := mkTool "toolA/1.0" "1.0" (Some "toolA") None (Some (-1)) None
                None None None None None (FlagBool true) in
  let t' := mkTool "toolA/1.0" "1.0" (Some "toolA") None (Some 4) (Some 1)
              (Some 13) (Some 12) (Some 20) (Some 20)
              (Some 9223372036854775808) (FlagBool true) in
  let w := mkWorld (Table []) 0 [] [] in
  upsert_tool env tool INSERT_TOOL_SQL w
  = (mkWorld (Table []) 0 [Tool_str t'] [], Raise int_too_large).
Proof.
  intros a env tool t' w.
  apply (proj2 (proj2 (upsert_tool_outcome env tool INSERT_TOOL_SQL w []
                         eq_refl)) t').
  - vm_compute. reflexivity.
  - vm_compute. reflexivity.
Defined.

